(** * tensorflow-image-models: the timm-to-keras example notebook and the
      test.pypi.org publish workflow

    The development embeds the two artefacts of the repository:

    - [notebooks/load_pretrained_timm.ipynb], a linear script over the
      external libraries [timm], [tfimm], [tensorflow] and [torch].  The
      notebook is embedded cell by cell in a state-and-exception monad
      [py].  The external libraries are an interface ([Libraries]): each
      entry point is a function on the process environment and an abstract
      library state that returns a value or raises.  Every call the
      notebook makes is recorded, with its arguments and its outcome, in
      the [log] of the interpreter state.
      Strided arrays (the storage model shared by torch tensors and numpy
      arrays) are concrete, so [permute] and [numpy] are the views the
      libraries document.

    - [.github/workflows/publish_test.yml], embedded as a record of
      triggers and steps, with a small interpreter for the [poetry]
      commands its steps run. *)

From Stdlib Require Import ZArith Ascii String List Bool Lia.
From stdpp Require Import base option list strings gmap.

Open Scope string_scope.
Open Scope Z_scope.

(** ** Python results *)

(** An exception is identified by its rendered text. *)
Definition exn := string.

Inductive result (A : Type) : Type :=
| Ok (a : A)
| Raise (e : exn).
Arguments Ok {A} a.
Arguments Raise {A} e.

Definition is_ok {A} (r : result A) : bool :=
  match r with Ok _ => true | Raise _ => false end.

Definition result_bind {A B} (r : result A) (f : A -> result B) : result B :=
  match r with Ok a => f a | Raise e => Raise e end.

(** ** Strided arrays *)

Section Arrays.
Context {elt : Type}.

(** A view on a flat buffer: the element at index [i0, .., ik] sits at
    [offset + i0 * s0 + .. + ik * sk] of [storage]. *)
Record ndarray : Type := {
  shape : list Z;
  strides : list Z;
  offset : Z;
  storage : list elt }.

(** A torch tensor: a strided view and the autograd flag. *)
Record tensor : Type := {
  data : ndarray;
  requires_grad : bool }.

Definition numel (shp : list Z) : Z := fold_right Z.mul 1 shp.

(** The distance, in elements, between two neighbours along an axis whose
    inner axes have extents [shp]; torch counts an extent of 0 as 1
    here. *)
Definition span (shp : list Z) : Z := fold_right (fun d acc => Z.max d 1 * acc) 1 shp.

(** Row-major strides of a freshly allocated array. *)
Fixpoint contiguous_strides (shp : list Z) : list Z :=
  match shp with
  | [] => []
  | _ :: rest => span rest :: contiguous_strides rest
  end.

Fixpoint flat_index (strd idx : list Z) : Z :=
  match strd, idx with
  | s :: strd', i :: idx' => i * s + flat_index strd' idx'
  | _, _ => 0
  end.

Fixpoint in_bounds (shp idx : list Z) : bool :=
  match shp, idx with
  | [], [] => true
  | d :: shp', i :: idx' => (0 <=? i) && (i <? d) && in_bounds shp' idx'
  | _, _ => false
  end.

(** [a[i0, .., ik]] for non-negative indices; [None] stands for
    [IndexError]. *)
Definition item (a : ndarray) (idx : list Z) : option elt :=
  if in_bounds (shape a) idx
  then storage a !! Z.to_nat (offset a + flat_index (strides a) idx)
  else None.

(** [dims] is a permutation of [0 .. n-1]. *)
Definition is_axes (n : nat) (dims : list Z) : bool :=
  (length dims =? n)%nat
  && forallb (fun d => (0 <=? d) && (d <? Z.of_nat n)) dims
  && forallb (fun j => (count_occ Z.eq_dec dims (Z.of_nat j) =? 1)%nat) (seq 0 n).

Definition select (l : list Z) (dims : list Z) : list Z :=
  map (fun d => nth (Z.to_nat d) l 0) dims.

(** [a.transpose(dims)]: axis [i] of the result is axis [dims[i]] of [a];
    the buffer is shared. *)
Definition transpose (dims : list Z) (a : ndarray) : result ndarray :=
  if is_axes (length (shape a)) dims
  then Ok {| shape := select (shape a) dims;
             strides := select (strides a) dims;
             offset := offset a;
             storage := storage a |}
  else Raise "RuntimeError: permute: dims do not match the tensor".

(** [t.permute(d0, .., dk)] *)
Definition permute (dims : list Z) (t : tensor) : result tensor :=
  result_bind (transpose dims (data t))
    (fun a => Ok {| data := a; requires_grad := requires_grad t |}).

(** [t.detach()] *)
Definition detach (t : tensor) : tensor :=
  {| data := data t; requires_grad := false |}.

(** [t.numpy()]: the same view as a numpy array; refused on a tensor that
    is part of an autograd graph. *)
Definition numpy (t : tensor) : result ndarray :=
  if requires_grad t
  then Raise "RuntimeError: Can't call numpy() on Tensor that requires grad."
  else Ok (data t).

(** The transposed view, or the array itself where [dims] does not fit. *)
Definition transpose_or_self (dims : list Z) (a : ndarray) : ndarray :=
  match transpose dims a with
  | Ok b => b
  | Raise _ => a
  end.

(** A fresh array of the given shape around a buffer. *)
Definition from_buffer (shp : list Z) (buf : list elt) : ndarray :=
  {| shape := shp; strides := contiguous_strides shp; offset := 0; storage := buf |}.
End Arrays.
Arguments ndarray : clear implicits.
Arguments tensor : clear implicits.

(** ** The interpreter state and the external libraries *)

Section Interpreter.
Context {elt lib_state timm_obj keras_obj : Type}.

(** The entry points of [timm], [tfimm], [torch], [tensorflow.keras] and
    [numpy] the notebook uses.  Model objects ([timm_obj], [keras_obj])
    are handles into the library state.  Library code runs inside the
    kernel process: a call is given the process environment ([os.environ])
    and the library state, may change both, and may raise. *)
Record Libraries : Type := {
  (** executing [import name]: the module's top-level code *)
  import_module : string -> gmap string string -> lib_state
                  -> gmap string string * lib_state * result unit;
  (** [timm.create_model(model_name=, num_classes=, pretrained=)] *)
  create_model : string -> Z -> bool -> gmap string string -> lib_state
                 -> gmap string string * lib_state * result timm_obj;
  (** [tfimm.load_timm_model(model_name, nb_classes=, pt_model=)] *)
  load_timm_model : string -> Z -> timm_obj -> gmap string string -> lib_state
                    -> gmap string string * lib_state * result keras_obj;
  (** one draw of torch's default generator, uniform on [0, 1) *)
  uniform : lib_state -> lib_state * elt;
  (** [model(x)] on a timm model *)
  forward : timm_obj -> tensor elt -> gmap string string -> lib_state
            -> gmap string string * lib_state * result (tensor elt);
  (** [model.predict(x)] on a keras model *)
  predict : keras_obj -> ndarray elt -> gmap string string -> lib_state
            -> gmap string string * lib_state * result (ndarray elt);
  (** [str(a)] on a numpy array *)
  array_str : ndarray elt -> result string;
  (** [model.save(filepath=, save_format=)] on a keras model *)
  save : keras_obj -> string -> string -> gmap string string -> lib_state
         -> gmap string string * lib_state * result unit }.

Inductive value : Type :=
| VNone
| VTimm (m : timm_obj)
| VKeras (k : keras_obj)
| VTensor (t : tensor elt)
| VArray (a : ndarray elt).

Inductive outcome : Type :=
| Returned (v : value)
| Raised (e : exn).

(** What the notebook asks of its environment, with the arguments. *)
Inductive event : Type :=
| Import (module : string)
| SetEnv (key val : string)
| CreateModel (model_name : string) (num_classes : Z) (pretrained : bool)
| LoadTimmModel (model_name : string) (nb_classes : Z) (pt_model : timm_obj)
| Rand (size : list Z)
| Forward (m : timm_obj) (x : tensor elt)
| Predict (k : keras_obj) (x : ndarray elt)
| Print (a : ndarray elt)
| Save (k : keras_obj) (filepath save_format : string).

(** The notebook's global namespace: the module aliases bound by [import]
    and the variables the cells assign. *)
Record globals : Type := {
  modules : list string;
  TIMM_MODEL_NAME : option string;
  N_CLASSES : option Z;
  IMG_DIM : option Z;
  timm_model : option timm_obj;
  keras_model : option keras_obj;
  sample_input : option (tensor elt);
  torch_output : option (ndarray elt);
  keras_output : option (ndarray elt) }.

Definition no_globals : globals :=
  {| modules := []; TIMM_MODEL_NAME := None; N_CLASSES := None; IMG_DIM := None;
     timm_model := None; keras_model := None; sample_input := None;
     torch_output := None; keras_output := None |}.

Definition bind_module (alias : string) (g : globals) : globals :=
  {| modules := alias :: modules g; TIMM_MODEL_NAME := TIMM_MODEL_NAME g;
     N_CLASSES := N_CLASSES g; IMG_DIM := IMG_DIM g; timm_model := timm_model g;
     keras_model := keras_model g; sample_input := sample_input g;
     torch_output := torch_output g; keras_output := keras_output g |}.
Definition set_TIMM_MODEL_NAME (v : string) (g : globals) : globals :=
  {| modules := modules g; TIMM_MODEL_NAME := Some v;
     N_CLASSES := N_CLASSES g; IMG_DIM := IMG_DIM g; timm_model := timm_model g;
     keras_model := keras_model g; sample_input := sample_input g;
     torch_output := torch_output g; keras_output := keras_output g |}.
Definition set_N_CLASSES (v : Z) (g : globals) : globals :=
  {| modules := modules g; TIMM_MODEL_NAME := TIMM_MODEL_NAME g;
     N_CLASSES := Some v; IMG_DIM := IMG_DIM g; timm_model := timm_model g;
     keras_model := keras_model g; sample_input := sample_input g;
     torch_output := torch_output g; keras_output := keras_output g |}.
Definition set_IMG_DIM (v : Z) (g : globals) : globals :=
  {| modules := modules g; TIMM_MODEL_NAME := TIMM_MODEL_NAME g;
     N_CLASSES := N_CLASSES g; IMG_DIM := Some v; timm_model := timm_model g;
     keras_model := keras_model g; sample_input := sample_input g;
     torch_output := torch_output g; keras_output := keras_output g |}.
Definition set_timm_model (v : timm_obj) (g : globals) : globals :=
  {| modules := modules g; TIMM_MODEL_NAME := TIMM_MODEL_NAME g;
     N_CLASSES := N_CLASSES g; IMG_DIM := IMG_DIM g; timm_model := Some v;
     keras_model := keras_model g; sample_input := sample_input g;
     torch_output := torch_output g; keras_output := keras_output g |}.
Definition set_keras_model (v : keras_obj) (g : globals) : globals :=
  {| modules := modules g; TIMM_MODEL_NAME := TIMM_MODEL_NAME g;
     N_CLASSES := N_CLASSES g; IMG_DIM := IMG_DIM g; timm_model := timm_model g;
     keras_model := Some v; sample_input := sample_input g;
     torch_output := torch_output g; keras_output := keras_output g |}.
Definition set_sample_input (v : tensor elt) (g : globals) : globals :=
  {| modules := modules g; TIMM_MODEL_NAME := TIMM_MODEL_NAME g;
     N_CLASSES := N_CLASSES g; IMG_DIM := IMG_DIM g; timm_model := timm_model g;
     keras_model := keras_model g; sample_input := Some v;
     torch_output := torch_output g; keras_output := keras_output g |}.
Definition set_torch_output (v : ndarray elt) (g : globals) : globals :=
  {| modules := modules g; TIMM_MODEL_NAME := TIMM_MODEL_NAME g;
     N_CLASSES := N_CLASSES g; IMG_DIM := IMG_DIM g; timm_model := timm_model g;
     keras_model := keras_model g; sample_input := sample_input g;
     torch_output := Some v; keras_output := keras_output g |}.
Definition set_keras_output (v : ndarray elt) (g : globals) : globals :=
  {| modules := modules g; TIMM_MODEL_NAME := TIMM_MODEL_NAME g;
     N_CLASSES := N_CLASSES g; IMG_DIM := IMG_DIM g; timm_model := timm_model g;
     keras_model := keras_model g; sample_input := sample_input g;
     torch_output := torch_output g; keras_output := Some v |}.

(** One entry of the call log: the request, the library state in which
    it was made and the one it left, and how it ended. *)
Record call : Type := {
  what : event;
  before : lib_state;
  after : lib_state;
  ended : outcome }.

(** The state of the kernel process. *)
Record world : Type := {
  environ : gmap string string;
  names : globals;
  stdout : list string;
  libs : lib_state;
  log : list call }.

(** A Python computation: it changes the world and returns or raises.
    The world reached when an exception is raised is kept: Python does
    not roll anything back. *)
Definition py (A : Type) : Type := world -> world * result A.

Definition ret {A} (a : A) : py A := fun w => (w, Ok a).

Definition bind {A B} (c : py A) (k : A -> py B) : py B :=
  fun w => match c w with
           | (w', Ok a) => k a w'
           | (w', Raise e) => (w', Raise e)
           end.

Definition raise {A} (e : exn) : py A := fun w => (w, Raise e).
End Interpreter.
Arguments Libraries : clear implicits.
Arguments value : clear implicits.
Arguments outcome : clear implicits.
Arguments event : clear implicits.
Arguments globals : clear implicits.
Arguments call : clear implicits.
Arguments world : clear implicits.
Arguments py : clear implicits.

Declare Scope py_scope.
Delimit Scope py_scope with py.
Notation "x <- c ;; k" := (bind c (fun x => k))
  (at level 100, c at next level, k at level 200, right associativity) : py_scope.
Notation "c ;; k" := (bind c (fun _ => k))
  (at level 100, k at level 200, right associativity) : py_scope.

(** ** The notebook *)

Section Notebook.
Context {elt lib_state timm_obj keras_obj : Type}.
Variable L : Libraries elt lib_state timm_obj keras_obj.

Local Abbreviation py := (py elt lib_state timm_obj keras_obj).
Local Abbreviation world := (world elt lib_state timm_obj keras_obj).
Local Abbreviation globals := (globals elt timm_obj keras_obj).
Local Abbreviation event := (event elt timm_obj keras_obj).
Local Abbreviation outcome := (outcome elt timm_obj keras_obj).
Local Abbreviation call := (call elt lib_state timm_obj keras_obj).
Local Abbreviation value := (value elt timm_obj keras_obj).
Local Open Scope py_scope.

(** *** Statements and expressions *)

(** Logging a request made in library state [s0]; the world already holds
    the state the request left. *)
Definition record (ev : event) (s0 : lib_state) (o : outcome) (w : world) : world :=
  {| environ := environ w; names := names w; stdout := stdout w; libs := libs w;
     log := log w ++ [{| what := ev; before := s0; after := libs w; ended := o |}] |}.

Definition lift {A} (r : result A) : py A := fun w => (w, r).

(** [name = v] *)
Definition assign (set : globals -> globals) : py unit :=
  fun w => ({| environ := environ w; names := set (names w); stdout := stdout w;
               libs := libs w; log := log w |}, Ok tt).

(** reading the variable [name] *)
Definition lookup_name {A} (name : string) (field : globals -> option A) : py A :=
  fun w => match field (names w) with
           | Some v => (w, Ok v)
           | None => (w, Raise ("NameError: name '" ++ name ++ "' is not defined"))
           end.

(** reading a module alias *)
Definition module_ (alias : string) : py unit :=
  fun w => if existsb (String.eqb alias) (modules (names w))
           then (w, Ok tt)
           else (w, Raise ("NameError: name '" ++ alias ++ "' is not defined")).

(** [import os]: the module is part of the interpreter. *)
Definition import_os : py unit :=
  fun w => (record (Import "os") (libs w) (Returned VNone)
              {| environ := environ w; names := bind_module "os" (names w);
                 stdout := stdout w; libs := libs w; log := log w |}, Ok tt).

(** [import module as alias] for an external library *)
Definition import_as (module alias : string) : py unit :=
  fun w => match import_module L module (environ w) (libs w) with
           | (env, s, Ok _) =>
               (record (Import module) (libs w) (Returned VNone)
                  {| environ := env; names := bind_module alias (names w);
                     stdout := stdout w; libs := s; log := log w |}, Ok tt)
           | (env, s, Raise e) =>
               (record (Import module) (libs w) (Raised e)
                  {| environ := env; names := names w;
                     stdout := stdout w; libs := s; log := log w |}, Raise e)
           end.

(** [os.environ[key] = val] *)
Definition environ_setitem (key val : string) : py unit :=
  module_ "os" ;;
  fun w => (record (SetEnv key val) (libs w) (Returned VNone)
              {| environ := <[key := val]> (environ w); names := names w;
                 stdout := stdout w; libs := libs w; log := log w |}, Ok tt).

(** a call into an external library *)
Definition lib_call {A} (ev : event) (inj : A -> value)
    (f : gmap string string -> lib_state -> gmap string string * lib_state * result A)
    : py A :=
  fun w => match f (environ w) (libs w) with
           | (env, s, Ok a) =>
               (record ev (libs w) (Returned (inj a))
                  {| environ := env; names := names w; stdout := stdout w;
                     libs := s; log := log w |}, Ok a)
           | (env, s, Raise e) =>
               (record ev (libs w) (Raised e)
                  {| environ := env; names := names w; stdout := stdout w;
                     libs := s; log := log w |}, Raise e)
           end.

(** [n] successive draws of the generator *)
Fixpoint draws (n : nat) (s : lib_state) : lib_state * list elt :=
  match n with
  | O => (s, [])
  | S n' => match uniform L s with
            | (s1, v) => match draws n' s1 with
                         | (s2, vs) => (s2, v :: vs)
                         end
            end
  end.

(** [torch.rand(size)]: a fresh contiguous tensor of uniform draws
    (float32, four bytes each), outside any autograd graph.  The size of
    the storage in bytes is an int64.  The environment is not touched. *)
Definition torch_rand (size : list Z) (env : gmap string string) (s : lib_state)
    : gmap string string * lib_state * result (tensor elt) :=
  if forallb (Z.leb 0) size
  then if 4 * numel size <? 2 ^ 63
       then match draws (Z.to_nat (numel size)) s with
            | (s', buf) =>
                (env, s', Ok {| data := from_buffer size buf; requires_grad := false |})
            end
       else (env, s, Raise "RuntimeError: Storage size calculation overflowed")
  else (env, s, Raise "RuntimeError: Trying to create tensor with negative dimension").

(** [print(a)] for an array: [str(a)], then a line on the standard
    output *)
Definition print (a : ndarray elt) : py unit :=
  fun w => match array_str L a with
           | Ok line =>
               (record (Print a) (libs w) (Returned VNone)
                  {| environ := environ w; names := names w;
                     stdout := stdout w ++ [line]; libs := libs w; log := log w |}, Ok tt)
           | Raise e => (record (Print a) (libs w) (Raised e) w, Raise e)
           end.

(** *** The code cells, in the order of the file *)

(** "import libraries" *)
Definition import_libraries : py unit :=
  import_os ;;
  environ_setitem "TF_CPP_MIN_LOG_LEVEL" "3" ;;
  import_as "timm" "timm" ;;
  import_as "tfimm" "tfimm" ;;
  import_as "tensorflow" "tf" ;;
  import_as "torch" "torch".

(** "Define the timm model parameters" *)
Definition define_parameters : py unit :=
  assign (set_TIMM_MODEL_NAME "vit_tiny_patch16_224") ;;
  assign (set_N_CLASSES 5) ;;
  assign (set_IMG_DIM 224).

(** "Creating pretrained timm model" *)
Definition create_timm_model : py unit :=
  module_ "timm" ;;
  model_name <- lookup_name "TIMM_MODEL_NAME" TIMM_MODEL_NAME ;;
  num_classes <- lookup_name "N_CLASSES" N_CLASSES ;;
  m <- lib_call (CreateModel model_name num_classes true) VTimm
         (create_model L model_name num_classes true) ;;
  assign (set_timm_model m).

(** "Creating keras model using weights from the pretrained timm" *)
Definition create_keras_model : py unit :=
  module_ "tfimm" ;;
  model_name <- lookup_name "TIMM_MODEL_NAME" TIMM_MODEL_NAME ;;
  nb_classes <- lookup_name "N_CLASSES" N_CLASSES ;;
  pt_model <- lookup_name "timm_model" timm_model ;;
  k <- lib_call (LoadTimmModel model_name nb_classes pt_model) VKeras
         (load_timm_model L model_name nb_classes pt_model) ;;
  assign (set_keras_model k).

(** "Testing models" *)
Definition testing_models : py unit :=
  (* sample_input = torch.rand((2,3,IMG_DIM,IMG_DIM)) *)
  module_ "torch" ;;
  d2 <- lookup_name "IMG_DIM" IMG_DIM ;;
  d3 <- lookup_name "IMG_DIM" IMG_DIM ;;
  x <- lib_call (Rand [2; 3; d2; d3]) VTensor (torch_rand [2; 3; d2; d3]) ;;
  assign (set_sample_input x) ;;
  (* torch_output = timm_model(sample_input).detach().numpy() *)
  m <- lookup_name "timm_model" timm_model ;;
  x <- lookup_name "sample_input" sample_input ;;
  y <- lib_call (Forward m x) VTensor (forward L m x) ;;
  a <- lift (numpy (detach y)) ;;
  assign (set_torch_output a) ;;
  (* keras_output = keras_model.predict(sample_input.permute(0,2,3,1).numpy()) *)
  k <- lookup_name "keras_model" keras_model ;;
  x <- lookup_name "sample_input" sample_input ;;
  xp <- lift (permute [0; 2; 3; 1] x) ;;
  xa <- lift (numpy xp) ;;
  o <- lib_call (Predict k xa) VArray (predict L k xa) ;;
  assign (set_keras_output o).

(** the two [print] statements *)
Definition print_outputs : py unit :=
  a <- lookup_name "torch_output" torch_output ;;
  print a ;;
  b <- lookup_name "keras_output" keras_output ;;
  print b.

(** "Save keras model" *)
Definition save_keras_model : py unit :=
  k <- lookup_name "keras_model" keras_model ;;
  model_name <- lookup_name "TIMM_MODEL_NAME" TIMM_MODEL_NAME ;;
  lib_call (Save k ("keras_" ++ model_name) "tf") (fun _ => VNone)
    (save L k ("keras_" ++ model_name) "tf").

Definition notebook : list (py unit) :=
  [ import_libraries; define_parameters; create_timm_model; create_keras_model;
    testing_models; print_outputs; save_keras_model ].

(** *** Running the cells *)

(** The kernel runs the cells one after the other and stops at the first
    cell that raises; the result names that cell and the exception. *)
Fixpoint run_cells (cells : list (py unit)) (i : nat) (w : world)
    : world * option (nat * exn) :=
  match cells with
  | [] => (w, None)
  | c :: rest => match c w with
                 | (w', Ok _) => run_cells rest (S i) w'
                 | (w', Raise e) => (w', Some (i, e))
                 end
  end.

(** A fresh kernel: the inherited process environment, the initial
    library state, nothing bound, nothing printed. *)
Definition fresh_kernel (env0 : gmap string string) (s0 : lib_state) : world :=
  {| environ := env0; names := no_globals; stdout := []; libs := s0; log := [] |}.

Definition run_notebook (env0 : gmap string string) (s0 : lib_state)
    : world * option (nat * exn) :=
  run_cells notebook 0%nat (fresh_kernel env0 s0).
End Notebook.

(* [torch.rand] is reasoned about through [torch_rand_ok], never by
   unfolding: the shape of the notebook has 301056 elements. *)
Arguments torch_rand : simpl never.

(** ** A small instance of the libraries

    Elements are integers, the generator is a counter, model objects are
    numbered handles.  [failing] names the entry point that raises (none
    does when it names nothing). *)

Module Toy.
(** The library state: the position of the generator and the parameters
    of the models created so far, by handle. *)
Record state : Type := {
  generator : Z;
  params : list (nat * list Z) }.

Definition fail_if (failing name : string) : result unit :=
  if String.eqb failing name then Raise ("Error: " ++ name) else Ok tt.

Definition head_logits (a : ndarray Z) : ndarray Z :=
  from_buffer [2; 5] (firstn 10 (storage a)).

Definition libraries (failing : string) : Libraries Z state nat nat :=
  {| import_module := fun name env s => (env, s, fail_if failing name);
     create_model := fun _ _ _ env s =>
       match fail_if failing "create_model" with
       | Ok _ => (env,
                  {| generator := generator s; params := (1%nat, [3; 1; 4]) :: params s |},
                  Ok 1%nat)
       | Raise e => (env, s, Raise e)
       end;
     load_timm_model := fun _ _ m env s =>
       match fail_if failing "load_timm_model" with
       | Ok _ => (env,
                  {| generator := generator s; params := (S m, [4; 1; 3]) :: params s |},
                  Ok (S m))
       | Raise e => (env, s, Raise e)
       end;
     uniform := fun s => ({| generator := generator s + 1; params := params s |},
                          generator s);
     forward := fun _ x env s =>
       (env, s, result_bind (fail_if failing "forward")
                  (fun _ => Ok {| data := head_logits (data x); requires_grad := true |}));
     predict := fun _ a env s =>
       (env, s, result_bind (fail_if failing "predict") (fun _ => Ok (head_logits a)));
     array_str := fun _ => result_bind (fail_if failing "str") (fun _ => Ok "[[...]]");
     save := fun _ _ _ env s => (env, s, fail_if failing "save") |}.

(** The same libraries, except that importing [torch] sets a variable of
    its own in the process environment, as the compiler cache of torch
    does. *)
Definition libraries_writing (failing : string) : Libraries Z state nat nat :=
  {| import_module := fun name env s =>
       (if String.eqb name "torch"
        then <["TORCHINDUCTOR_CACHE_DIR" := "/tmp/torchinductor_root"]> env
        else env,
        s, fail_if failing name);
     create_model := create_model (libraries failing);
     load_timm_model := load_timm_model (libraries failing);
     uniform := uniform (libraries failing);
     forward := forward (libraries failing);
     predict := predict (libraries failing);
     array_str := array_str (libraries failing);
     save := save (libraries failing) |}.

Definition start : state := {| generator := 0; params := [] |}.
End Toy.


(** ** The publish workflow *)

Module PublishTest.

(** Events of the automation platform that can start a workflow. *)
Inductive gh_event : Type :=
| push
| pull_request
| schedule
| workflow_dispatch
| workflow_call
| repository_dispatch
| release.

Definition gh_event_eqb (a b : gh_event) : bool :=
  match a, b with
  | push, push | pull_request, pull_request | schedule, schedule
  | workflow_dispatch, workflow_dispatch | workflow_call, workflow_call
  | repository_dispatch, repository_dispatch | release, release => true
  | _, _ => false
  end.

(** The value of an [env:] entry. *)
Inductive expr : Type :=
| Lit (s : string)
| Secret (name : string).

(** The [if:] of a step; a step without one runs when every earlier step
    succeeded. *)
Inductive cond : Type :=
| OnSuccess
| OutputNe (step_id output value : string).

Record step : Type := {
  name : option string;
  id : option string;
  uses : option string;
  with_ : list (string * string);
  env : list (string * expr);
  run : list string;
  if_ : cond }.

Record job : Type := {
  job_name : string;
  matrix : list (string * list string);
  runs_on : string;
  steps : list step }.

Record workflow : Type := {
  wf_name : string;
  on : list gh_event;
  jobs : list (string * job) }.

Definition checkout : step :=
  {| name := None; id := None; uses := Some "actions/checkout@v2";
     with_ := [("fetch-depth", "1")]; env := []; run := []; if_ := OnSuccess |}.

Definition set_up_python : step :=
  {| name := Some "Set up Python ${{ matrix.python }}"; id := None;
     uses := Some "actions/setup-python@v2";
     with_ := [("python-version", "${{ matrix.python }}")];
     env := []; run := []; if_ := OnSuccess |}.

Definition install_poetry : step :=
  {| name := Some "Install poetry"; id := None;
     uses := Some "abatilo/actions-poetry@v2.0.0";
     with_ := [("poetry-version", "${{ matrix.poetry }}")];
     env := []; run := []; if_ := OnSuccess |}.

Definition cache_poetry_environment : step :=
  {| name := Some "Cache poetry environment"; id := Some "cache";
     uses := Some "actions/cache@v2.1.6";
     with_ :=
       [("path", "~/.virtualenvs");
        ("key", "poetry-${{ matrix.os }}-${{ matrix.python }}-${{ hashFiles('**/poetry.lock') }}");
        ("restore-keys", "poetry-${{ matrix.os }}-${{ matrix.python }}-${{ hashFiles('**/poetry.lock') }}")];
     env := []; run := []; if_ := OnSuccess |}.

Definition set_poetry_config : step :=
  {| name := Some "Set Poetry config"; id := None; uses := None;
     with_ := []; env := [];
     run := ["poetry config virtualenvs.in-project false";
             "poetry config virtualenvs.path ~/.virtualenvs"];
     if_ := OnSuccess |}.

Definition install_dependencies : step :=
  {| name := Some "Install Dependencies"; id := None; uses := None;
     with_ := []; env := [];
     run := ["poetry install -E timm"];
     if_ := OutputNe "cache" "cache-hit" "true" |}.

Definition publish_package : step :=
  {| name := Some "Publish package"; id := None; uses := None;
     with_ := []; env := [("TEST_PYPI_TOKEN", Secret "TEST_PYPI_TOKEN")];
     run := ["poetry config repositories.test-pypi https://test.pypi.org/legacy/";
             "poetry config pypi-token.test-pypi $TEST_PYPI_TOKEN";
             "poetry build";
             "poetry publish -r test-pypi"];
     if_ := OnSuccess |}.

Definition publish : job :=
  {| job_name := "Publish python package to PyPi";
     matrix := [("os", ["ubuntu-latest"]); ("python", ["3.7"]); ("poetry", ["1.1.6"])];
     runs_on := "${{ matrix.os }}";
     steps := [ checkout; set_up_python; install_poetry; cache_poetry_environment;
                set_poetry_config; install_dependencies; publish_package ] |}.

Definition publish_test : workflow :=
  {| wf_name := "Publish to test.pypi.org";
     on := [workflow_dispatch];
     jobs := [("publish", publish)] |}.

(** *** The platform *)

(** A workflow starts on the events listed under [on:]. *)
Definition triggered_by (wf : workflow) (ev : gh_event) : bool :=
  existsb (gh_event_eqb ev) (on wf).

(** Splitting at blanks (space, tab, newline). *)
Definition is_blank (c : ascii) : bool :=
  Ascii.eqb c " "%char || Ascii.eqb c "009"%char || Ascii.eqb c "010"%char.

Fixpoint words_aux (cur : string) (s : string) : list string :=
  match s with
  | EmptyString => if String.eqb cur "" then [] else [cur]
  | String c rest =>
      if is_blank c
      then (if String.eqb cur "" then words_aux "" rest else cur :: words_aux "" rest)
      else words_aux (cur ++ String c EmptyString) rest
  end.

Definition words (s : string) : list string := words_aux "" s.

Fixpoint assoc {A} (key : string) (l : list (string * A)) : option A :=
  match l with
  | [] => None
  | (k, v) :: rest => if String.eqb k key then Some v else assoc key rest
  end.

(** Unquoted [$NAME] expands to the fields of the variable's value: the
    value is split at blanks, and a value without a field leaves no
    word. *)
Definition expand (vars : list (string * string)) (w : string) : list string :=
  match w with
  | String "$"%char var => match assoc var vars with
                         | Some v => words v
                         | None => []
                         end
  | _ => [w]
  end.

(** A value that reaches the command as the one word it is: not empty,
    made of letters, digits, [-], [_] and [.] (so that the shell neither
    splits it nor matches it against file names), and not beginning with
    [-] (so that the command does not read it as an option). *)
Definition token_char (c : ascii) : bool :=
  let n := nat_of_ascii c in
  ((48 <=? n) && (n <=? 57) || (65 <=? n) && (n <=? 90) || (97 <=? n) && (n <=? 122)
   || (n =? 45) || (n =? 95) || (n =? 46))%nat.

Fixpoint all_chars (f : ascii -> bool) (s : string) : bool :=
  match s with
  | EmptyString => true
  | String c rest => f c && all_chars f rest
  end.

Definition is_option (w : string) : bool :=
  match w with
  | String c (String _ _) => Ascii.eqb c "-"%char
  | _ => false
  end.

Definition plain_word (v : string) : bool :=
  match v with
  | EmptyString => false
  | String c _ => negb (Ascii.eqb c "-"%char) && all_chars token_char v
  end.

(** *** poetry *)

Definition pypi_legacy : string := "https://upload.pypi.org/legacy/".

Record poetry : Type := {
  config : gmap string (list string);
  dist : bool;
  uploads : list string }.

Definition poetry_init : poetry := {| config := ∅; dist := false; uploads := [] |}.

Definition mem (x : string) (l : list string) : bool := existsb (String.eqb x) l.

(** The settings of [poetry config]: the ones poetry 1.1 knows by name,
    which hold a boolean or a path; [repositories.NAME] (every key that
    begins with [repo] is read as one, [repo.NAME] and [repos.NAME]
    included); and the credentials [pypi-token.NAME] and
    [http-basic.NAME]. *)
Inductive setting : Type :=
| Boolean
| Path
| Repository (name : option string)
| PypiToken (name : string)
| HttpBasic (name : string)
| Unknown.

Fixpoint strip_prefix (pre s : string) : option string :=
  match pre, s with
  | EmptyString, _ => Some s
  | String a pre', String b s' => if Ascii.eqb a b then strip_prefix pre' s' else None
  | String _ _, EmptyString => None
  end.

Definition optional (pre s : string) : string :=
  match strip_prefix pre s with
  | Some rest => rest
  | None => s
  end.

Definition after_dot (s : string) : option string :=
  match s with
  | String c (String d rest) => if Ascii.eqb c "."%char then Some (String d rest) else None
  | _ => None
  end.

Definition classify (key : string) : setting :=
  if mem key ["virtualenvs.create"; "virtualenvs.in-project";
              "experimental.new-installer"; "installer.parallel"] then Boolean
  else if mem key ["cache-dir"; "virtualenvs.path"] then Path
  else match strip_prefix "repo" key with
       | Some rest => Repository (after_dot (optional "itories" (optional "s" rest)))
       | None =>
           match strip_prefix "pypi-token." key with
           | Some (String c rest) => PypiToken (String c rest)
           | _ => match strip_prefix "http-basic." key with
                  | Some (String c rest) => HttpBasic (String c rest)
                  | _ => Unknown
                  end
           end
       end.

Definition set_config (key : string) (vals : list string) (p : poetry) : poetry :=
  {| config := <[key := vals]> (config p); dist := dist p; uploads := uploads p |}.

Definition unset_config (key : string) (p : poetry) : poetry :=
  {| config := delete key (config p); dist := dist p; uploads := uploads p |}.

(** [poetry config key] prints the setting. *)
Definition show_config (key : string) (p : poetry) : option poetry :=
  match classify key with
  | Boolean | Path | Repository None => Some p
  | Repository (Some name) =>
      match config p !! ("repositories." ++ name) with
      | Some _ => Some p
      | None => None
      end
  | _ => None
  end.

(** [poetry config key value ..] *)
Definition write_config (key : string) (vals : list string) (p : poetry) : option poetry :=
  match classify key, vals with
  | Boolean, [v] => if mem v ["true"; "false"; "1"; "0"] then Some (set_config key [v] p)
                    else None
  | Path, [v] => Some (set_config key [v] p)
  | Repository (Some name), [url] => Some (set_config ("repositories." ++ name) [url] p)
  | PypiToken name, [token] => Some (set_config ("pypi-token." ++ name) [token] p)
  | HttpBasic name, [user; password] =>
      Some (set_config ("http-basic." ++ name) [user; password] p)
  | _, _ => None
  end.

(** [poetry config --unset key] *)
Definition remove_config (key : string) (p : poetry) : option poetry :=
  match classify key with
  | Boolean | Path => Some (unset_config key p)
  | Repository (Some name) =>
      match config p !! ("repositories." ++ name) with
      | Some _ => Some (unset_config ("repositories." ++ name) p)
      | None => None
      end
  | PypiToken name => Some (unset_config ("pypi-token." ++ name) p)
  | HttpBasic name => Some (unset_config ("http-basic." ++ name) p)
  | _ => None
  end.

(** The [config] command.  An option poetry does not know is an error;
    [--help] and [--version] print and do nothing else; so does [--list];
    the other options of the command line change nothing of what is
    modelled. *)
Definition poetry_config (args : list string) (p : poetry) : option poetry :=
  let opts := List.filter is_option args in
  if negb (forallb (fun o => mem o ["--list"; "--unset"; "--local"; "-h"; "--help";
                                    "-q"; "--quiet"; "-v"; "-vv"; "-vvv"; "--verbose";
                                    "-V"; "--version"; "--ansi"; "--no-ansi";
                                    "-n"; "--no-interaction"]) opts)
  then None
  else if existsb (fun o => mem o ["-h"; "--help"; "-V"; "--version"; "--list"]) opts
  then Some p
  else match List.filter (fun w => negb (is_option w)) args with
       | [] => Some p
       | [key] => if mem "--unset" opts then remove_config key p else show_config key p
       | key :: vals => if mem "--unset" opts then None else write_config key vals p
       end.

(** The registry takes an upload only with credentials for it. *)
Definition credentials (repo : string) (p : poetry) : bool :=
  match config p !! ("pypi-token." ++ repo), config p !! ("http-basic." ++ repo) with
  | Some [_], _ => true
  | _, Some [_; _] => true
  | _, _ => false
  end.

Definition upload (repo url : string) (p : poetry) : option poetry :=
  if dist p && credentials repo p
  then Some {| config := config p; dist := dist p; uploads := uploads p ++ [url] |}
  else None.

(** [poetry args]; [None] is a non-zero exit status.  [publish] without
    [-r] goes to the production index; with [-r name] it goes to the URL
    configured as [repositories.name]. *)
Definition poetry_cmd (args : list string) (p : poetry) : option poetry :=
  match args with
  | sub :: rest =>
      if String.eqb sub "config" then poetry_config rest p
      else if String.eqb sub "install" then Some p
      else if String.eqb sub "build" then
        Some {| config := config p; dist := true; uploads := uploads p |}
      else if String.eqb sub "publish" then
        match rest with
        | [] => upload "pypi" pypi_legacy p
        | [flag; repo] =>
            if String.eqb flag "-r" || String.eqb flag "--repository" then
              match config p !! ("repositories." ++ repo) with
              | Some [url] => upload repo url p
              | _ => None
              end
            else None
        | _ => None
        end
      else None
  | [] => None
  end.

(** *** Running a job *)

(** What the run depends on from outside: the secrets, the output of the
    cache action, and the position of the first unit (action or command
    line) that fails for a reason outside the job (the network, the
    registry refusing the upload), if any. *)
Record inputs : Type := {
  secrets : string -> string;
  cache_hit : string;
  outage : option nat }.

Record runner : Type := {
  tools : poetry;
  units : nat;
  failed : bool }.

Definition eval_expr (i : inputs) (e : expr) : string :=
  match e with
  | Lit s => s
  | Secret n => secrets i n
  end.

Definition tick (i : inputs) (r : runner) : option runner :=
  if match outage i with Some k => Nat.eqb k (units r) | None => false end
  then None
  else Some {| tools := tools r; units := S (units r); failed := failed r |}.

Definition fail (r : runner) : runner :=
  {| tools := tools r; units := units r; failed := true |}.

(** One command line of a script; only [poetry] is on the path. *)
Definition exec_line (i : inputs) (vars : list (string * string)) (line : string)
    (r : runner) : runner :=
  match tick i r with
  | None => fail r
  | Some r' =>
      match concat (map (expand vars) (words line)) with
      | prog :: args =>
          if String.eqb prog "poetry"
          then match poetry_cmd args (tools r') with
               | Some p => {| tools := p; units := units r'; failed := failed r' |}
               | None => fail r'
               end
          else fail r'
      | [] => r'
      end
  end.

(** A script stops at its first failing line; what the earlier lines did
    stays done. *)
Fixpoint exec_lines (i : inputs) (vars : list (string * string)) (lines : list string)
    (r : runner) : runner :=
  match lines with
  | [] => r
  | l :: rest => let r' := exec_line i vars l r in
                 if failed r' then r' else exec_lines i vars rest r'
  end.

(** The platform compares strings without regard to case. *)
Definition lower (c : ascii) : ascii :=
  let n := nat_of_ascii c in
  if ((65 <=? n) && (n <=? 90))%nat then ascii_of_nat (n + 32) else c.

Fixpoint lowercase (s : string) : string :=
  match s with
  | EmptyString => EmptyString
  | String c rest => String (lower c) (lowercase rest)
  end.

Definition eqb_nocase (a b : string) : bool := String.eqb (lowercase a) (lowercase b).

(** An [if:] without a status function is checked only when every earlier
    step succeeded.  The only step output in play is [cache-hit] of the
    step with id [cache]; any other output is the empty string. *)
Definition eval_cond (i : inputs) (c : cond) (r : runner) : bool :=
  match c with
  | OnSuccess => negb (failed r)
  | OutputNe sid out v =>
      negb (failed r)
      && negb (eqb_nocase (if String.eqb sid "cache" && String.eqb out "cache-hit"
                           then cache_hit i else "") v)
  end.

(** One step: an action ([uses:]) touches nothing of poetry; a script
    ([run:]) runs its lines with the step's [env:]. *)
Definition exec_step (i : inputs) (s : step) (r : runner) : runner :=
  if eval_cond i (if_ s) r then
    match uses s with
    | Some _ => match tick i r with Some r' => r' | None => fail r end
    | None => exec_lines i (map (fun kv => (fst kv, eval_expr i (snd kv))) (env s)) (run s) r
    end
  else r.

Definition exec_job (i : inputs) (j : job) : runner :=
  fold_left (fun r s => exec_step i s r) (steps j)
    {| tools := poetry_init; units := 0; failed := false |}.

(** The registries a run of the workflow on event [ev] uploads to. *)
Definition published_to (wf : workflow) (ev : gh_event) (i : inputs) : list string :=
  if triggered_by wf ev
  then concat (map (fun nj => uploads (tools (exec_job i (snd nj)))) (jobs wf))
  else [].

Definition test_pypi_legacy : string := "https://test.pypi.org/legacy/".

Definition is_test_registry (url : string) : bool :=
  String.prefix "https://test.pypi.org/" url.

(** The same inputs with the cache output reduced to what the workflow
    asks of it. *)
Definition cache_hit_or_miss (i : inputs) : inputs :=
  {| secrets := secrets i;
     cache_hit := if eqb_nocase (cache_hit i) "true" then "true" else "false";
     outage := outage i |}.

(** The publish job up to its last step. *)
Definition before_publish (i : inputs) : runner :=
  fold_left (fun r s => exec_step i s r)
    [ checkout; set_up_python; install_poetry; cache_poetry_environment;
      set_poetry_config; install_dependencies ]
    {| tools := poetry_init; units := 0; failed := false |}.
End PublishTest.


(** ** Observations on a run *)

Section Observations.
Context {elt lib_state timm_obj keras_obj : Type}.

Local Abbreviation world := (world elt lib_state timm_obj keras_obj).
Local Abbreviation globals := (globals elt timm_obj keras_obj).
Local Abbreviation event := (event elt timm_obj keras_obj).
Local Abbreviation outcome := (outcome elt timm_obj keras_obj).
Local Abbreviation value := (value elt timm_obj keras_obj).
Local Abbreviation call := (call elt lib_state timm_obj keras_obj).
Local Abbreviation Libraries := (Libraries elt lib_state timm_obj keras_obj).

(** The code cell (position in [notebook]) a request is made from. *)
Definition cell_of (ev : event) : nat :=
  match ev with
  | Import _ | SetEnv _ _ => 0
  | CreateModel _ _ _ => 2
  | LoadTimmModel _ _ _ => 3
  | Rand _ | Forward _ _ | Predict _ _ => 4
  | Print _ => 5
  | Save _ _ _ => 6
  end%nat.

(** Requests without their arguments. *)
Inductive op : Type :=
| OpImport (module : string)
| OpSetEnv
| OpCreateModel
| OpLoadTimmModel
| OpRand
| OpForward
| OpPredict
| OpPrint
| OpSave.

Definition op_of (ev : event) : op :=
  match ev with
  | Import m => OpImport m
  | SetEnv _ _ => OpSetEnv
  | CreateModel _ _ _ => OpCreateModel
  | LoadTimmModel _ _ _ => OpLoadTimmModel
  | Rand _ => OpRand
  | Forward _ _ => OpForward
  | Predict _ _ => OpPredict
  | Print _ => OpPrint
  | Save _ _ _ => OpSave
  end.

(** The requests of a complete run, in the order of the file. *)
Definition sequence : list op :=
  [ OpImport "os"; OpSetEnv; OpImport "timm"; OpImport "tfimm";
    OpImport "tensorflow"; OpImport "torch";
    OpCreateModel; OpLoadTimmModel;
    OpRand; OpForward; OpPredict;
    OpPrint; OpPrint;
    OpSave ].

Definition returned (c : call) : bool :=
  match ended c with Returned _ => true | Raised _ => false end.


Definition is_setenv (c : call) : bool :=
  match what c with SetEnv _ _ => true | _ => false end.

Definition is_print (c : call) : bool :=
  match what c with Print _ => true | _ => false end.

(** The run stopped in a cell before cell [i]. *)
Definition halted_before (i : nat) (out : option (nat * exn)) : bool :=
  match out with
  | Some (j, _) => (j <? i)%nat
  | None => false
  end.




(** The requests of a log, without their arguments. *)
Definition ops (l : list call) : list op := map (fun c => op_of (what c)) l.

(** The [(filepath, save_format)] of every [save] request. *)
Definition save_targets (l : list call) : list (string * string) :=
  omap (fun c => match what c with Save _ p f => Some (p, f) | _ => None end) l.

(** *** Replacing what the models compute *)

(** The same libraries, except that the timm model's output goes through
    [f] and the keras model's through [g]. *)
Definition with_outputs (f : tensor elt -> tensor elt) (g : ndarray elt -> ndarray elt)
    (L : Libraries) : Libraries :=
  {| import_module := import_module L;
     create_model := create_model L;
     load_timm_model := load_timm_model L;
     uniform := uniform L;
     forward := fun m x env s => match forward L m x env s with
                                 | (env', s', Ok y) => (env', s', Ok (f y))
                                 | (env', s', Raise e) => (env', s', Raise e)
                                 end;
     predict := fun k x env s => match predict L k x env s with
                                 | (env', s', Ok y) => (env', s', Ok (g y))
                                 | (env', s', Raise e) => (env', s', Raise e)
                                 end;
     array_str := array_str L;
     save := save L |}.

(** *** Setting aside what the libraries write to the environment *)

(** The same libraries run so that their writes to the environment are
    dropped: every call sees the environment as it is and hands it back
    unchanged.  What is left of the changes to the environment in a run
    over these libraries is what the notebook's own statements wrote. *)
Definition keep_environ {A} (env : gmap string string)
    (r : gmap string string * lib_state * result A)
    : gmap string string * lib_state * result A :=
  (env, r.1.2, r.2).

Definition env_writes_dropped (L : Libraries) : Libraries :=
  {| import_module := fun name env s => keep_environ env (import_module L name env s);
     create_model := fun n c p env s => keep_environ env (create_model L n c p env s);
     load_timm_model := fun n c m env s => keep_environ env (load_timm_model L n c m env s);
     uniform := uniform L;
     forward := fun m x env s => keep_environ env (forward L m x env s);
     predict := fun k x env s => keep_environ env (predict L k x env s);
     array_str := array_str L;
     save := fun k p f env s => keep_environ env (save L k p f env s) |}.





(** *** Libraries in which nothing fails *)

End Observations.

(** ** Runs from any kernel state *)

Section KernelState.
Context {elt lib_state timm_obj keras_obj : Type}.

Local Abbreviation world := (world elt lib_state timm_obj keras_obj).
Local Abbreviation globals := (globals elt timm_obj keras_obj).
Local Abbreviation value := (value elt timm_obj keras_obj).
Local Abbreviation call := (call elt lib_state timm_obj keras_obj).
Local Abbreviation Libraries := (Libraries elt lib_state timm_obj keras_obj).




Definition op_eqb (a b : op) : bool :=
  match a, b with
  | OpImport m, OpImport m' => String.eqb m m'
  | OpSetEnv, OpSetEnv | OpCreateModel, OpCreateModel
  | OpLoadTimmModel, OpLoadTimmModel | OpRand, OpRand | OpForward, OpForward
  | OpPredict, OpPredict | OpPrint, OpPrint | OpSave, OpSave => true
  | _, _ => false
  end.

(** What the last request of kind [o] that returned, returned. *)
Definition result_of (o : op) (l : list call) : option value :=
  last (omap (fun c => if op_eqb (op_of (what c)) o
                       then match ended c with
                            | Returned v => Some v
                            | Raised _ => None
                            end
                       else None) l).

(** The array a variable holds for a returned value: a tensor is kept as
    [.detach().numpy()], the view it has. *)
Definition as_array (v : value) : option (ndarray elt) :=
  match v with
  | VTensor t => Some (data t)
  | VArray a => Some a
  | _ => None
  end.

Definition as_tensor (v : value) : option (tensor elt) :=
  match v with VTensor t => Some t | _ => None end.

Definition as_timm (v : value) : option timm_obj :=
  match v with VTimm m => Some m | _ => None end.

Definition as_keras (v : value) : option keras_obj :=
  match v with VKeras k => Some k | _ => None end.

(** The arrays handed to [print], in order, and the lines of the [print]
    requests that returned. *)
Definition print_args (l : list call) : list (ndarray elt) :=
  omap (fun c => match what c with Print a => Some a | _ => None end) l.

Definition printed (L : Libraries) (l : list call) : list string :=
  omap (fun c => match what c, ended c with
                 | Print a, Returned _ =>
                     match array_str L a with
                     | Ok line => Some line
                     | Raise _ => None
                     end
                 | _, _ => None
                 end) l.

End KernelState.

(** A kernel in which the toy libraries are loaded and the parameters and
    both models are bound, with a 2 by 2 image. *)
Module ToyCell.
Definition ready : world Z Toy.state nat nat :=
  {| environ := ∅;
     names := {| modules := ["torch"; "tf"; "tfimm"; "timm"; "os"];
                 TIMM_MODEL_NAME := Some "vit_tiny_patch16_224";
                 N_CLASSES := Some 5; IMG_DIM := Some 2;
                 timm_model := Some 1%nat; keras_model := Some 2%nat;
                 sample_input := None; torch_output := None; keras_output := None |};
     stdout := []; libs := Toy.start; log := [] |}.
End ToyCell.

(** The number of units (actions and command lines) the publish job
    runs when nothing fails: the dependencies are installed unless the cache
    step reported ['true'], in whatever case. *)
Module PublishSettings.
Import PublishTest.
End PublishSettings.

(** The run over the toy libraries in which [create_model] raises, from
    [Toy.start] in an empty environment: its log. *)
Module ToyRun.
Definition entry (ev : event Z nat nat) (o : outcome Z nat nat)
    : call Z Toy.state nat nat :=
  {| what := ev; before := Toy.start; after := Toy.start; ended := o |}.

Definition import_tensorflow : call Z Toy.state nat nat :=
  entry (Import "tensorflow") (Returned VNone).

Definition create_raises : call Z Toy.state nat nat :=
  entry (CreateModel "vit_tiny_patch16_224" 5 true) (Raised "Error: create_model").

Definition stopped_at_create : list (call Z Toy.state nat nat) :=
  [ entry (Import "os") (Returned VNone);
    entry (SetEnv "TF_CPP_MIN_LOG_LEVEL" "3") (Returned VNone);
    entry (Import "timm") (Returned VNone);
    entry (Import "tfimm") (Returned VNone);
    import_tensorflow;
    entry (Import "torch") (Returned VNone);
    create_raises ].
End ToyRun.

(** ** Strided views *)

Section ArrayFacts.
Context {elt : Type}.
Implicit Types a : ndarray elt.



End ArrayFacts.

(** A (1,2,1,2) array in channel-first order and its channel-last view:
    channel 0 holds 10 20, channel 1 holds 30 40. *)
Example transpose_0231_small :
  let a := from_buffer [1; 2; 1; 2] [10; 20; 30; 40] in
  let b := transpose_or_self [0; 2; 3; 1] a in
  shape b = [1; 1; 2; 2]
  /\ item a [0; 1; 0; 0] = Some 30 /\ item b [0; 0; 0; 1] = Some 30
  /\ item a [0; 0; 0; 1] = Some 20 /\ item b [0; 0; 1; 0] = Some 20
  /\ item b [0; 0; 0; 2] = None.
Proof. repeat split; reflexivity. Qed.

(** [permute] refuses axes that are not a permutation, [numpy] a tensor in
    an autograd graph. *)
Example permute_numpy_refusals :
  let t := {| data := from_buffer [1; 2; 1; 2] [10; 20; 30; 40]; requires_grad := true |} in
  is_ok (permute [0; 2; 3; 3] t) = false
  /\ is_ok (permute [0; 2; 3] t) = false
  /\ is_ok (numpy t) = false
  /\ is_ok (numpy (detach t)) = true.
Proof. repeat split; reflexivity. Qed.

(** ** Runs of the notebook *)

Section RunLemmas.
Context {elt lib_state timm_obj keras_obj : Type}.
Variable L : Libraries elt lib_state timm_obj keras_obj.

Lemma draws_length n s : length (snd (draws L n s)) = n.
Proof.
  revert s; induction n as [|n IH]; intros s; simpl; [reflexivity|].
  destruct (uniform L s) as [s1 v]. specialize (IH s1).
  destruct (draws L n s1) as [s2 vs]. simpl in *. congruence.
Qed.

(** [torch.rand] of a shape without negative extents whose storage fits
    an int64 returns: a fresh contiguous tensor over as many draws as the
    shape has elements. *)
Lemma torch_rand_ok size env s :
  forallb (Z.leb 0) size = true ->
  (4 * numel size <? 2 ^ 63) = true ->
  exists s' buf,
    torch_rand L size env s
      = (env, s', Ok {| data := from_buffer size buf; requires_grad := false |})
    /\ draws L (Z.to_nat (numel size)) s = (s', buf)
    /\ Z.of_nat (length buf) = numel size.
Proof.
  intros H Hfit. unfold torch_rand. rewrite H, Hfit.
  pose proof (draws_length (Z.to_nat (numel size)) s) as Hlen.
  destruct (draws L (Z.to_nat (numel size)) s) as [s' buf]. simpl in Hlen.
  exists s', buf. repeat split. rewrite Hlen. apply Z2Nat.id.
  clear -H. induction size as [|d size IH]; simpl in *; [lia|].
  apply andb_prop in H as [Hd Hs]. apply Z.leb_le in Hd. specialize (IH Hs). nia.
Qed.

(** Replacing the model outputs, or dropping the writes to the
    environment, does not touch the generator. *)
Lemma torch_rand_with_outputs f g size env s :
  torch_rand (with_outputs f g L) size env s = torch_rand L size env s.
Proof. reflexivity. Qed.

Lemma torch_rand_env_writes_dropped size env s :
  torch_rand (env_writes_dropped L) size env s = torch_rand L size env s.
Proof. reflexivity. Qed.

Lemma run_cells_cons (c : py elt lib_state timm_obj keras_obj unit) rest i
    (w : world elt lib_state timm_obj keras_obj) :
  run_cells (c :: rest) i w =
    match c w with
    | (w', Ok _) => run_cells rest (S i) w'
    | (w', Raise e) => (w', Some (i, e))
    end.
Proof. reflexivity. Qed.
End RunLemmas.

(** *** Symbolic execution

    [run_cases H] takes [H : run_notebook L env0 s0 = (w, out)] through the
    cells one at a time ([run_cell]); inside a cell, [call] splits on the
    outcome of the next library call.  It leaves one goal per way the run
    can end, with [w] and [out] explicit.  The namespace is kept as an
    explicit record between steps ([flatten]). *)
Ltac flatten H :=
  try rewrite !torch_rand_with_outputs in H;
  try rewrite !torch_rand_env_writes_dropped in H;
  cbv [set_TIMM_MODEL_NAME set_N_CLASSES set_IMG_DIM set_timm_model set_keras_model
       set_sample_input set_torch_output set_keras_output bind_module no_globals
       record with_outputs env_writes_dropped keep_environ] in H;
  cbn in H.

(** The outcome of a call already met is taken from its equation. *)
Ltac known H t :=
  match goal with
  | E : t = _ |- _ => rewrite E in H
  end.

Ltac call H :=
  lazymatch type of H with
  | context [import_module ?L ?m ?e ?s] =>
      first [ known H (import_module L m e s)
            | destruct (import_module L m e s) as [[? ?] [[]|?]] eqn:? ]
  | context [create_model ?L ?n ?c ?p ?e ?s] =>
      first [ known H (create_model L n c p e s)
            | destruct (create_model L n c p e s) as [[? ?] [?|?]] eqn:? ]
  | context [load_timm_model ?L ?n ?c ?m ?e ?s] =>
      first [ known H (load_timm_model L n c m e s)
            | destruct (load_timm_model L n c m e s) as [[? ?] [?|?]] eqn:? ]
  | context [torch_rand ?L ?size ?e ?s] =>
      first [ known H (torch_rand L size e s)
            | let Hd := fresh "Hdraws" in
              let Hl := fresh "Hlen" in
              let Hr := fresh "Hrand" in
              destruct (torch_rand_ok L size e s eq_refl eq_refl) as (? & ? & Hr & Hd & Hl);
              rewrite Hr in H;
              let n := eval vm_compute in (numel size) in
              change (numel size) with n in Hl ]
  | context [forward ?L ?m ?x ?e ?s] =>
      first [ known H (forward L m x e s)
            | destruct (forward L m x e s) as [[? ?] [?|?]] eqn:? ]
  | context [permute ?d ?x] =>
      let r := eval cbv in (permute d x) in
      change (permute d x) with r in H
  | context [predict ?L ?k ?x ?e ?s] =>
      first [ known H (predict L k x e s)
            | destruct (predict L k x e s) as [[? ?] [?|?]] eqn:? ]
  | context [array_str ?L ?a] =>
      first [ known H (array_str L a)
            | destruct (array_str L a) as [?|?] eqn:? ]
  | context [save ?L ?k ?p ?f ?e ?s] =>
      first [ known H (save L k p f e s)
            | destruct (save L k p f e s) as [[? ?] [[]|?]] eqn:? ]
  end; cbn in H; flatten H.

Ltac exec_cell H :=
  unfold import_libraries, define_parameters, create_timm_model, create_keras_model,
    testing_models, print_outputs, save_keras_model in H;
  unfold environ_setitem, import_os, import_as, lib_call, print, lookup_name,
    module_, assign, lift, bind in H;
  cbn in H; flatten H; repeat call H; injection H as <- <-.

Ltac run_cell H :=
  lazymatch type of H with
  | run_cells (?c :: ?rest) ?i ?w = _ =>
      let Hc := fresh "Hc" in
      let w' := fresh "w" in
      let r := fresh "r" in
      rewrite (run_cells_cons c rest i w) in H;
      destruct (c w) as [w' r] eqn:Hc;
      exec_cell Hc;
      cbv beta iota in H
  end.

Ltac run_cases H :=
  unfold run_notebook, notebook, fresh_kernel in H;
  repeat run_cell H;
  try (cbn [run_cells] in H);
  injection H as <- <-.

(** Case analysis on membership in an explicit list, and membership of an
    element that is there. *)
Ltac in_log H :=
  repeat (apply elem_of_cons in H as [->|H]);
  [ .. | apply elem_of_nil in H; destruct H ].

Ltac is_there :=
  repeat first [ apply list_elem_of_here | apply list_elem_of_further ].

Section NotebookFacts.
Context {elt lib_state timm_obj keras_obj : Type}.
Variable L : Libraries elt lib_state timm_obj keras_obj.

Local Abbreviation call := (call elt lib_state timm_obj keras_obj).
Local Abbreviation world := (world elt lib_state timm_obj keras_obj).




(** C2: no cell handles exceptions.  If any logged request raised [e], the
    run has ended with [e] in the cell that made the request, that request
    is the last entry of the log (nothing ran after it), every earlier
    request had returned, and the notebook printed nothing beyond the lines
    of the [print] calls that returned. *)
Theorem exception_halts_notebook env0 s0 (c : call) e :
  c ∈ log (run_notebook L env0 s0).1 ->
  ended c = Raised e ->
  (run_notebook L env0 s0).2 = Some (cell_of (what c), e)
  /\ (exists pre, log (run_notebook L env0 s0).1 = (pre ++ [c])%list
                  /\ forallb returned pre = true)
  /\ length (stdout (run_notebook L env0 s0).1)
       = length (filter (fun c' => is_print c' && returned c')
                   (log (run_notebook L env0 s0).1)).
Proof.
  destruct (run_notebook L env0 s0) as [w0 out] eqn:Hrun. cbn [fst snd].
  intros Hin Hraised. run_cases Hrun; cbn in Hin; in_log Hin;
    cbn in Hraised; try discriminate Hraised.
  all: injection Hraised as <-.
  all: split; [ reflexivity | ].
  all: split; [ | reflexivity ].
  all: cbn [log].
  all: lazymatch goal with
       | |- ex (fun pre => ?l = _ /\ _) => exists (removelast l)
       end.
  all: split; reflexivity.
Qed.



(** C5: the requests of a run are an initial segment of [sequence]
    (imports, create, convert, rand, forward, predict, print, print, save),
    every request but possibly the last has returned, a run that completes
    has made all fourteen, and a run that stops has stopped on its last
    request.  In particular a [save] request is the fourteenth: the
    thirteen before it, both inference calls and both prints included,
    have returned. *)
Theorem operations_in_file_order env0 s0 :
  exists n,
    (n <= 14)%nat
    /\ ops (log (run_notebook L env0 s0).1) = take n sequence
    /\ forallb returned (take (n - 1) (log (run_notebook L env0 s0).1)) = true
    /\ match (run_notebook L env0 s0).2 with
       | None => n = 14%nat
                 /\ forallb returned (log (run_notebook L env0 s0).1) = true
       | Some (i, e) =>
           exists c, last (log (run_notebook L env0 s0).1) = Some c
                     /\ ended c = Raised e /\ cell_of (what c) = i
       end
    /\ forall i c,
         log (run_notebook L env0 s0).1 !! i = Some c ->
         op_of (what c) = OpSave ->
         i = 13%nat
         /\ ops (take 13 (log (run_notebook L env0 s0).1)) = take 13 sequence
         /\ forallb returned (take 13 (log (run_notebook L env0 s0).1)) = true.
Proof.
  destruct (run_notebook L env0 s0) as [w0 out] eqn:Hrun. cbn [fst snd].
  run_cases Hrun; cbn [log].
  all: lazymatch goal with
       | |- context [ops ?l = _] => exists (length l)
       end.
  all: split; [ cbn; lia | ].
  all: split; [ reflexivity | ].
  all: split; [ reflexivity | ].
  all: split; [ first [ split; reflexivity | eexists; repeat split; reflexivity ] | ].
  all: intros i c Hi Hop.
  all: do 14 (destruct i as [|i];
              [ cbn in Hi;
                first [ discriminate Hi
                      | injection Hi as <-; cbn in Hop;
                        first [ discriminate Hop | repeat split; reflexivity ] ]
              | ]).
  all: cbn in Hi; discriminate Hi.
Qed.


(** C7: the notebook's own statements write one environment variable.
    The log of a run holds one assignment to the environment,
    [TF_CPP_MIN_LOG_LEVEL] to ["3"].  The first library to run, [timm] at
    its import, is given the environment the kernel started in with that
    variable set and nothing else changed: whatever else changes later is
    written by library code.  With the writes the libraries make
    themselves set aside, the environment a run leaves is the one it
    started in with that variable set: the variable holds ["3"] and every
    other variable is as it was. *)
Theorem only_env_write env0 s0 :
  map what (filter is_setenv (log (run_notebook L env0 s0).1))
    = [SetEnv "TF_CPP_MIN_LOG_LEVEL" "3"]
  /\ (exists c : call,
        log (run_notebook L env0 s0).1 !! 2%nat = Some c
        /\ what c = Import "timm"
        /\ before c = s0
        /\ after c
           = (import_module L "timm" (<["TF_CPP_MIN_LOG_LEVEL" := "3"]> env0) s0).1.2
        /\ returned c
           = is_ok (import_module L "timm" (<["TF_CPP_MIN_LOG_LEVEL" := "3"]> env0) s0).2)
  /\ environ (run_notebook (env_writes_dropped L) env0 s0).1
       = <["TF_CPP_MIN_LOG_LEVEL" := "3"]> env0
  /\ environ (run_notebook (env_writes_dropped L) env0 s0).1 !! "TF_CPP_MIN_LOG_LEVEL"
       = Some "3"
  /\ forall key, key <> "TF_CPP_MIN_LOG_LEVEL" ->
       environ (run_notebook (env_writes_dropped L) env0 s0).1 !! key = env0 !! key.
Proof.
  split; [ | split ].
  - destruct (run_notebook L env0 s0) as [w0 out] eqn:Hrun. cbn [fst snd].
    run_cases Hrun; reflexivity.
  - destruct (run_notebook L env0 s0) as [w0 out] eqn:Hrun. cbn [fst snd].
    run_cases Hrun; cbn [log].
    all: eexists; split; [ reflexivity | ].
    all: repeat split; reflexivity.
  - assert (H : environ (run_notebook (env_writes_dropped L) env0 s0).1
                = <["TF_CPP_MIN_LOG_LEVEL" := "3"]> env0).
    { destruct (run_notebook (env_writes_dropped L) env0 s0) as [w0 out] eqn:Hrun.
      cbn [fst snd]. run_cases Hrun; reflexivity. }
    rewrite H. split; [ reflexivity | ].
    split; [ apply lookup_insert_eq | ].
    intros key Hkey; apply lookup_insert_ne; congruence.
Qed.


End NotebookFacts.

(** The toy run in which [create_model] raises stops in the third code
    cell, after six requests that returned. *)
Example toy_stopped_at_create :
  run_notebook (Toy.libraries "create_model") ∅ Toy.start
    = ({| environ := <["TF_CPP_MIN_LOG_LEVEL" := "3"]> ∅;
          names := {| modules := ["torch"; "tf"; "tfimm"; "timm"; "os"];
                      TIMM_MODEL_NAME := Some "vit_tiny_patch16_224";
                      N_CLASSES := Some 5; IMG_DIM := Some 224;
                      timm_model := None; keras_model := None; sample_input := None;
                      torch_output := None; keras_output := None |};
          stdout := []; libs := Toy.start; log := ToyRun.stopped_at_create |},
       Some (2%nat, "Error: create_model")).
Proof. reflexivity. Qed.

(** Running a cell before the one that binds its names raises
    [NameError]: the cells communicate through the namespace only. *)
Example save_before_conversion :
  (save_keras_model (Toy.libraries "") (fresh_kernel ∅ Toy.start)).2
    = Raise "NameError: name 'keras_model' is not defined".
Proof. reflexivity. Qed.


(** Against C7 read as a statement on the whole process: over libraries
    in which importing [torch] sets [TORCHINDUCTOR_CACHE_DIR], a run
    leaves a second environment variable changed. *)
Lemma only_env_write_counterexample :
  exists key,
    key <> "TF_CPP_MIN_LOG_LEVEL"
    /\ environ (run_notebook (Toy.libraries_writing "create_model") ∅ Toy.start).1 !! key
         = Some "/tmp/torchinductor_root"
    /\ (∅ : gmap string string) !! key = None.
Proof.
  exists "TORCHINDUCTOR_CACHE_DIR". split; [ discriminate | ]. split; reflexivity.
Qed.


Lemma exception_halts_notebook_witness :
  (run_notebook (Toy.libraries "create_model") ∅ Toy.start).2
    = Some (cell_of (what ToyRun.create_raises), "Error: create_model")
  /\ (exists pre, log (run_notebook (Toy.libraries "create_model") ∅ Toy.start).1
                    = (pre ++ [ToyRun.create_raises])%list
                  /\ forallb returned pre = true)
  /\ length (stdout (run_notebook (Toy.libraries "create_model") ∅ Toy.start).1)
       = length (filter (fun c' => is_print c' && returned c')
                   (log (run_notebook (Toy.libraries "create_model") ∅ Toy.start).1)).
Proof.
  apply (exception_halts_notebook (Toy.libraries "create_model") ∅ Toy.start
           ToyRun.create_raises "Error: create_model").
  - change (ToyRun.create_raises ∈ ToyRun.stopped_at_create).
    unfold ToyRun.stopped_at_create. is_there.
  - reflexivity.
Defined.



(** ** More on the notebook: used kernels, the namespace, single cells *)



Section KernelStateFacts.
Context {elt lib_state timm_obj keras_obj : Type}.
Variable L : Libraries elt lib_state timm_obj keras_obj.

Local Abbreviation call := (call elt lib_state timm_obj keras_obj).
Local Abbreviation world := (world elt lib_state timm_obj keras_obj).


(** X2: after a run from a fresh kernel each variable holds what the
    request behind it returned, and is unbound when that request raised or
    was never made: [timm_model] the result of [create_model],
    [keras_model] that of [load_timm_model], [sample_input] that of
    [torch.rand], [torch_output] and [keras_output] the arrays of the two
    inference results; the three parameters are bound as soon as the first
    cell has passed. *)
Theorem namespace_holds_results env0 s0 :
  timm_model (names (run_notebook L env0 s0).1)
    = result_of OpCreateModel (log (run_notebook L env0 s0).1) ≫= as_timm
  /\ keras_model (names (run_notebook L env0 s0).1)
     = result_of OpLoadTimmModel (log (run_notebook L env0 s0).1) ≫= as_keras
  /\ sample_input (names (run_notebook L env0 s0).1)
     = result_of OpRand (log (run_notebook L env0 s0).1) ≫= as_tensor
  /\ torch_output (names (run_notebook L env0 s0).1)
     = result_of OpForward (log (run_notebook L env0 s0).1) ≫= as_array
  /\ keras_output (names (run_notebook L env0 s0).1)
     = result_of OpPredict (log (run_notebook L env0 s0).1) ≫= as_array
  /\ (TIMM_MODEL_NAME (names (run_notebook L env0 s0).1),
      N_CLASSES (names (run_notebook L env0 s0).1),
      IMG_DIM (names (run_notebook L env0 s0).1))
     = (if halted_before 1 (run_notebook L env0 s0).2
        then (None, None, None)
        else (Some "vit_tiny_patch16_224", Some 5, Some 224)).
Proof.
  destruct (run_notebook L env0 s0) as [w0 out] eqn:Hrun. cbn [fst snd].
  run_cases Hrun; repeat split; reflexivity.
Qed.


(** X3: what is printed.  A run that stops before the print cell makes
    no [print] request.  A run that reaches it has both outputs bound and
    asks to print [torch_output] first; it asks to print [keras_output]
    next unless [str] of the first raised.  A run that gets past the cell
    has made exactly these two requests, in this order, and [str] returned
    for both. *)
Theorem prints_torch_then_keras_output env0 s0 :
  (halted_before 5 (run_notebook L env0 s0).2 = true ->
   print_args (log (run_notebook L env0 s0).1) = [])
  /\ (halted_before 5 (run_notebook L env0 s0).2 = false ->
      exists a b,
        torch_output (names (run_notebook L env0 s0).1) = Some a
        /\ keras_output (names (run_notebook L env0 s0).1) = Some b
        /\ (print_args (log (run_notebook L env0 s0).1) = [a; b]
            \/ (print_args (log (run_notebook L env0 s0).1) = [a]
                /\ is_ok (array_str L a) = false)))
  /\ (halted_before 6 (run_notebook L env0 s0).2 = false ->
      exists a b,
        torch_output (names (run_notebook L env0 s0).1) = Some a
        /\ keras_output (names (run_notebook L env0 s0).1) = Some b
        /\ print_args (log (run_notebook L env0 s0).1) = [a; b]
        /\ is_ok (array_str L a) = true
        /\ is_ok (array_str L b) = true).
Proof.
  destruct (run_notebook L env0 s0) as [w0 out] eqn:Hrun. cbn [fst snd].
  run_cases Hrun; cbn [log names torch_output keras_output].
  all: split; [ intros Hh; try discriminate Hh; reflexivity | ].
  all: split; intros Hh; try discriminate Hh.
  all: eexists _, _; split; [ reflexivity | ]; split; [ reflexivity | ].
  all: repeat match goal with
         | E : array_str L ?a = _ |- context [array_str L ?a] => rewrite E
         end.
  all: first [ left; reflexivity
             | right; split; reflexivity
             | repeat split; reflexivity ].
Qed.




(** X5: the first five code cells are all needed for the model to be
    saved: with any one of them left out of an in-order run in a fresh
    kernel, the run stops with an exception and no [save] request is
    made. *)
Theorem skipping_a_cell_prevents_save env0 s0 i :
  (i < 5)%nat ->
  save_targets (log (run_cells (delete i (notebook L)) 0%nat (fresh_kernel env0 s0)).1) = []
  /\ is_Some (run_cells (delete i (notebook L)) 0%nat (fresh_kernel env0 s0)).2.
Proof.
  intros Hi.
  destruct (run_cells (delete i (notebook L)) 0%nat (fresh_kernel env0 s0))
    as [w0 out] eqn:Hrun. cbn [fst snd].
  unfold notebook, fresh_kernel in Hrun.
  destruct i as [|[|[|[|[|i]]]]]; [ .. | lia ].
  all: cbn [delete list_delete] in Hrun.
  all: repeat run_cell Hrun; try (cbn [run_cells] in Hrun); injection Hrun as <- <-.
  all: split; [ reflexivity | eexists; reflexivity ].
Qed.




End KernelStateFacts.

Lemma skipping_a_cell_prevents_save_witness :
  save_targets
      (log (run_cells (delete 3%nat (notebook (Toy.libraries ""))) 0%nat
              (fresh_kernel ∅ Toy.start)).1) = []
  /\ is_Some (run_cells (delete 3%nat (notebook (Toy.libraries ""))) 0%nat
                (fresh_kernel ∅ Toy.start)).2.
Proof.
  apply (skipping_a_cell_prevents_save (Toy.libraries "") ∅ Toy.start 3%nat). lia.
Defined.


(** The toy cell on a 2 by 2 image: the draws are 0, 1, .., 23, and the
    element at (1,2,0,1) of the tensor is the element at (1,0,1,2) of what
    the keras model receives. *)
Example toy_cell_channel_last :
  let w := (testing_models (Toy.libraries "") ToyCell.ready).1 in
  (data <$> sample_input (names w)) ≫= (fun a => item a [1; 2; 0; 1]) = Some 21
  /\ print_args (log w) = []
  /\ omap (fun c => match what c with Predict _ y => item y [1; 0; 1; 2] | _ => None end)
        (log w) = [21].
Proof. vm_compute. repeat split; reflexivity. Qed.

(** ** Runs of the publish workflow *)

Module PublishFacts.
Import PublishTest.

Lemma tick_ext i i' r : outage i = outage i' -> tick i r = tick i' r.
Proof. intros H. unfold tick. rewrite H. reflexivity. Qed.

Lemma exec_line_ext i i' vars line r :
  outage i = outage i' -> exec_line i vars line r = exec_line i' vars line r.
Proof. intros H. unfold exec_line. rewrite (tick_ext i i' r H). reflexivity. Qed.

Lemma exec_lines_ext i i' vars lines r :
  outage i = outage i' -> exec_lines i vars lines r = exec_lines i' vars lines r.
Proof.
  intros H. revert r. induction lines as [|l rest IH]; intros r; cbn [exec_lines].
  - reflexivity.
  - rewrite (exec_line_ext i i' vars l r H).
    destruct (failed (exec_line i' vars l r)); [reflexivity | apply IH].
Qed.

Example words_publish :
  words "poetry  publish -r test-pypi " = ["poetry"; "publish"; "-r"; "test-pypi"].
Proof. reflexivity. Qed.

(** What decides the registry is the [-r] of the [publish] line: without
    it the same script, given a token for the production index, uploads
    there. *)
Example publish_without_repository :
  uploads (tools (exec_lines
                    {| secrets := fun _ => "t"; cache_hit := "true"; outage := None |} []
                    ["poetry config pypi-token.pypi t"; "poetry build"; "poetry publish"]
                    {| tools := poetry_init; units := 0; failed := false |}))
    = [pypi_legacy].
Proof. reflexivity. Qed.

(** A run that finds the cache and meets no failure, step by step: the
    dependencies are not installed and the package is uploaded once. *)
Example dispatched_run :
  let r := exec_job {| secrets := fun _ => "t"; cache_hit := "true"; outage := None |}
             publish in
  units r = 10%nat /\ failed r = false /\ uploads (tools r) = [test_pypi_legacy].
Proof. vm_compute. repeat split; reflexivity. Qed.

(** Without a token the job fails at the line that configures it, with a
    token of two words as well; nothing is uploaded. *)
Example dispatched_run_without_token :
  let r := exec_job {| secrets := fun _ => ""; cache_hit := "true"; outage := None |}
             publish in
  let r2 := exec_job {| secrets := fun _ => "pypi-abc def"; cache_hit := "true";
                        outage := None |} publish in
  units r = 8%nat /\ failed r = true /\ uploads (tools r) = []
  /\ units r2 = 8%nat /\ failed r2 = true /\ uploads (tools r2) = [].
Proof. vm_compute. repeat split; reflexivity. Qed.

(** A step sees the inputs through the secrets, the outage and its own
    condition only. *)
Lemma exec_step_ext i i' s r :
  secrets i = secrets i' -> outage i = outage i' ->
  eval_cond i (if_ s) r = eval_cond i' (if_ s) r ->
  exec_step i s r = exec_step i' s r.
Proof.
  intros Hs Ho Hc. unfold exec_step. rewrite Hc.
  destruct (eval_cond i' (if_ s) r); [ | reflexivity ].
  destruct (uses s).
  - rewrite (tick_ext i i' r Ho). reflexivity.
  - replace (map (fun kv => (kv.1, eval_expr i kv.2)) (env s))
      with (map (fun kv => (kv.1, eval_expr i' kv.2)) (env s)).
    + apply exec_lines_ext, Ho.
    + apply map_ext. intros [k e]. cbn [fst snd]. f_equal.
      destruct e; cbn [eval_expr]; [reflexivity | rewrite Hs; reflexivity].
Qed.

Lemma fold_steps_ext (F G : step -> runner -> runner) l r0 :
  Forall (fun s => forall r, F s r = G s r) l ->
  fold_left (fun r s => F s r) l r0 = fold_left (fun r s => G s r) l r0.
Proof.
  intros H. revert r0. induction H as [|s l Hs _ IH]; intros r0; cbn [fold_left].
  - reflexivity.
  - rewrite Hs. apply IH.
Qed.

Lemma install_cond_cache_hit i r :
  eval_cond i (if_ install_dependencies) r
    = eval_cond (cache_hit_or_miss i) (if_ install_dependencies) r.
Proof.
  cbn [if_ install_dependencies eval_cond cache_hit cache_hit_or_miss].
  change (String.eqb "cache" "cache" && String.eqb "cache-hit" "cache-hit") with true.
  cbv iota. destruct (eqb_nocase (cache_hit i) "true"); reflexivity.
Qed.

(** The publish job asks one thing of the cache output: whether it is
    ['true']. *)
Lemma exec_job_cache_hit i :
  exec_job i publish = exec_job (cache_hit_or_miss i) publish.
Proof.
  unfold exec_job. apply fold_steps_ext.
  repeat constructor; intros r; apply exec_step_ext; try reflexivity.
  apply install_cond_cache_hit.
Qed.

Lemma before_publish_cache_hit i :
  before_publish i = before_publish (cache_hit_or_miss i).
Proof.
  unfold before_publish. apply fold_steps_ext.
  repeat constructor; intros r; apply exec_step_ext; try reflexivity.
  apply install_cond_cache_hit.
Qed.

(** The job up to its last step: six units on a cache hit and seven
    otherwise, nothing uploaded. *)
Lemma before_publish_summary i :
  let n := if eqb_nocase (cache_hit i) "true" then 6%nat else 7%nat in
  failed (before_publish i)
    = match outage i with
      | Some k => (k <? n)%nat
      | None => false
      end
  /\ units (before_publish i)
     = match outage i with
       | Some k => Nat.min k n
       | None => n
       end
  /\ uploads (tools (before_publish i)) = []
  /\ dist (tools (before_publish i)) = false.
Proof.
  rewrite before_publish_cache_hit. destruct i as [sec hit out].
  unfold cache_hit_or_miss. cbn [secrets cache_hit outage].
  destruct (eqb_nocase hit "true"); (destruct out as [n|];
    [ do 8 (destruct n as [|n]; [ vm_compute; auto | ]); vm_compute; auto
    | vm_compute; auto ]).
Qed.

Lemma job_split i : exec_job i publish = exec_step i publish_package (before_publish i).
Proof. reflexivity. Qed.

Lemma publish_step i r :
  exec_step i publish_package r
    = if failed r then r
      else exec_lines i [("TEST_PYPI_TOKEN", secrets i "TEST_PYPI_TOKEN")]
             (run publish_package) r.
Proof. unfold exec_step. cbn [if_ publish_package eval_cond]. destruct (failed r); reflexivity. Qed.

(** A line that runs [poetry]. *)
Lemma exec_line_poetry i vars line args r :
  concat (map (expand vars) (words line)) = "poetry" :: args ->
  exec_line i vars line r
    = match tick i r with
      | None => fail r
      | Some r' => match poetry_cmd args (tools r') with
                   | Some p => {| tools := p; units := units r'; failed := failed r' |}
                   | None => fail r'
                   end
      end.
Proof. intros H. unfold exec_line. rewrite H. reflexivity. Qed.

Lemma token_line_words tok :
  concat (map (expand [("TEST_PYPI_TOKEN", tok)])
            (words "poetry config pypi-token.test-pypi $TEST_PYPI_TOKEN"))
    = "poetry" :: "config" :: "pypi-token.test-pypi" :: words tok.
Proof.
  change (words "poetry config pypi-token.test-pypi $TEST_PYPI_TOKEN")
    with ["poetry"; "config"; "pypi-token.test-pypi"; "$TEST_PYPI_TOKEN"].
  cbn -[words]. do 3 f_equal. apply app_nil_r.
Qed.

Lemma exec_lines_cons i vars l rest r :
  exec_lines i vars (l :: rest) r
    = if failed (exec_line i vars l r) then exec_line i vars l r
      else exec_lines i vars rest (exec_line i vars l r).
Proof. reflexivity. Qed.

Lemma append_empty_r (s : string) : (s ++ "")%string = s.
Proof.
  induction s as [|c s IH]; [ reflexivity | ].
  change (String c (s ++ "") = String c s). f_equal. exact IH.
Qed.

Lemma append_snoc (s : string) c v :
  ((s ++ String c "") ++ v)%string = (s ++ String c v)%string.
Proof.
  induction s as [|d s IH]; [ reflexivity | ].
  change (String d ((s ++ String c "") ++ v) = String d (s ++ String c v)).
  f_equal. exact IH.
Qed.

Lemma token_char_not_blank c : token_char c = true -> is_blank c = false.
Proof.
  intros H. unfold is_blank.
  destruct (Ascii.eqb_spec c " "%char) as [->|_]; [ discriminate H | ].
  destruct (Ascii.eqb_spec c "009"%char) as [->|_]; [ discriminate H | ].
  destruct (Ascii.eqb_spec c "010"%char) as [->|_]; [ discriminate H | ].
  reflexivity.
Qed.

Lemma words_aux_plain v cur :
  all_chars token_char v = true -> (cur ++ v)%string <> "" ->
  words_aux cur v = [(cur ++ v)%string].
Proof.
  revert cur. induction v as [|c v IH]; intros cur Hall Hne; cbn [words_aux].
  - rewrite append_empty_r in *. destruct (String.eqb_spec cur ""); [ congruence | reflexivity ].
  - cbn [all_chars] in Hall. apply andb_prop in Hall as [Hc Hv].
    rewrite (token_char_not_blank c Hc), IH, append_snoc; [ reflexivity | exact Hv | ].
    rewrite append_snoc. destruct cur; discriminate.
Qed.

(** A plain word is the one field of its expansion, and no option. *)
Lemma plain_word_words v :
  plain_word v = true -> words v = [v] /\ is_option v = false.
Proof.
  destruct v as [|c v]; [ discriminate | ]. cbn [plain_word].
  intros H. apply andb_prop in H as [Hc Hall]. split.
  - unfold words. rewrite words_aux_plain; [ reflexivity | exact Hall | discriminate ].
  - unfold is_option. destruct v; [ reflexivity | ].
    apply negb_true_iff in Hc. exact Hc.
Qed.

(** The line that configures the token, for a plain word: the token is
    stored. *)
Lemma config_token_plain t p :
  is_option t = false ->
  poetry_cmd ["config"; "pypi-token.test-pypi"; t] p
    = Some (set_config "pypi-token.test-pypi" [t] p).
Proof.
  intros H. unfold poetry_cmd. change (String.eqb "config" "config") with true. cbv iota.
  unfold poetry_config. cbn [List.filter].
  change (is_option "pypi-token.test-pypi") with false. rewrite H. reflexivity.
Qed.

(** The same line for any value of the token: it fails, or it changes at
    most the token of the repository. *)
Lemma config_token_any ws p :
  match poetry_cmd ("config" :: "pypi-token.test-pypi" :: ws) p with
  | None => True
  | Some p' =>
      dist p' = dist p /\ uploads p' = uploads p
      /\ config p' !! "repositories.test-pypi" = config p !! "repositories.test-pypi"
  end.
Proof.
  unfold poetry_cmd. change (String.eqb "config" "config") with true. cbv iota.
  unfold poetry_config. cbn [List.filter].
  change (is_option "pypi-token.test-pypi") with false. cbn [negb].
  destruct (negb _); [ exact I | ].
  destruct (existsb _ _); [ repeat split | ].
  destruct (List.filter (fun w => negb (is_option w)) ws) as [|v vs].
  - destruct (mem "--unset" _).
    + unfold remove_config.
      change (classify "pypi-token.test-pypi") with (PypiToken "test-pypi").
      cbn [unset_config dist uploads config]. repeat split.
      apply lookup_delete_ne. discriminate.
    + exact I.
  - destruct (mem "--unset" _); [ exact I | ].
    unfold write_config.
    change (classify "pypi-token.test-pypi") with (PypiToken "test-pypi").
    destruct vs; [ | exact I ].
    cbn [set_config dist uploads config]. repeat split.
    apply lookup_insert_ne. discriminate.
Qed.

(** A line that runs [poetry] ends in one of three ways: the platform
    fails before the command starts, the command fails, or the command
    succeeds. *)
Lemma exec_line_cases i vars line args r :
  concat (map (expand vars) (words line)) = "poetry" :: args ->
  (outage i = Some (units r) /\ exec_line i vars line r = fail r)
  \/ (outage i <> Some (units r)
      /\ poetry_cmd args (tools r) = None
      /\ exec_line i vars line r
         = {| tools := tools r; units := S (units r); failed := true |})
  \/ (outage i <> Some (units r)
      /\ exists p, poetry_cmd args (tools r) = Some p
                   /\ exec_line i vars line r
                      = {| tools := p; units := S (units r); failed := failed r |}).
Proof.
  intros H. rewrite (exec_line_poetry i vars line args r H). unfold tick.
  destruct (outage i) as [k|].
  - destruct (Nat.eqb_spec k (units r)) as [->|Hk].
    + left. split; reflexivity.
    + right. assert (Some k <> Some (units r)) by congruence.
      cbn [tools units failed].
      destruct (poetry_cmd args (tools r)) as [p|].
      * right. split; [ assumption | ]. exists p. split; reflexivity.
      * left. repeat split; assumption.
  - right. assert (@None nat <> Some (units r)) by discriminate.
    cbn [tools units failed].
    destruct (poetry_cmd args (tools r)) as [p|].
    + right. split; [ assumption | ]. exists p. split; reflexivity.
    + left. repeat split; assumption.
Qed.

Lemma publish_to_test_pypi p :
  config p !! "repositories.test-pypi" = Some [test_pypi_legacy] ->
  poetry_cmd ["publish"; "-r"; "test-pypi"] p
    = if dist p && credentials "test-pypi" p
      then Some {| config := config p; dist := dist p;
                   uploads := uploads p ++ [test_pypi_legacy] |}
      else None.
Proof.
  intros H. unfold poetry_cmd.
  change (String.eqb "publish" "config") with false.
  change (String.eqb "publish" "install") with false.
  change (String.eqb "publish" "build") with false.
  change (String.eqb "publish" "publish") with true.
  change (String.eqb "-r" "-r" || String.eqb "-r" "--repository") with true.
  cbv iota.
  change ("repositories." ++ "test-pypi")%string with "repositories.test-pypi".
  rewrite H. reflexivity.
Qed.

(** The next line of a script, by cases on how it ends. *)
Ltac poetry_line args pf p H :=
  rewrite exec_lines_cons;
  match goal with
  | |- context [exec_line ?i ?v ?l ?r] =>
      destruct (exec_line_cases i v l args r pf)
        as [[_ ->]|[(_ & _ & ->)|(_ & p & H & ->)]]
  end;
  cbn [failed fail tools uploads].

(** The script of the last step, started with nothing uploaded: it fails
    and uploads nothing, or it succeeds and has uploaded once to the test
    registry. *)
Lemma publish_script_safe i r :
  failed r = false -> uploads (tools r) = [] ->
  let r' := exec_lines i [("TEST_PYPI_TOKEN", secrets i "TEST_PYPI_TOKEN")]
              (run publish_package) r in
  (failed r' = true /\ uploads (tools r') = [])
  \/ (failed r' = false /\ uploads (tools r') = [test_pypi_legacy]).
Proof.
  intros Hf Hu. destruct r as [p u f]. cbn [failed tools uploads] in Hf, Hu. subst f.
  cbn zeta. cbn [run publish_package].
  poetry_line ["config"; "repositories.test-pypi"; "https://test.pypi.org/legacy/"]
    (@eq_refl (list string)
       ["poetry"; "config"; "repositories.test-pypi"; "https://test.pypi.org/legacy/"])
    p1 H1;
    [ left; split; [ reflexivity | exact Hu ] .. | ].
  injection H1 as <-.
  poetry_line ("config" :: "pypi-token.test-pypi" :: words (secrets i "TEST_PYPI_TOKEN"))
    (token_line_words (secrets i "TEST_PYPI_TOKEN")) p2 H2;
    [ left; split; [ reflexivity | exact Hu ] .. | ].
  match type of H2 with
  | poetry_cmd (_ :: _ :: ?ws) ?q = _ =>
      pose proof (config_token_any ws q) as Hany; rewrite H2 in Hany
  end.
  destruct Hany as (Hd2 & Hu2 & Hc2).
  cbn [tools set_config dist uploads config] in Hd2, Hu2, Hc2.
  change ("repositories." ++ "test-pypi")%string with "repositories.test-pypi" in Hc2.
  rewrite lookup_insert_eq in Hc2. rewrite Hu in Hu2.
  poetry_line ["build"] (@eq_refl (list string) ["poetry"; "build"]) p3 H3;
    [ left; split; [ reflexivity | exact Hu2 ] .. | ].
  injection H3 as <-.
  poetry_line ["publish"; "-r"; "test-pypi"]
    (@eq_refl (list string) ["poetry"; "publish"; "-r"; "test-pypi"]) p4 H4;
    [ left; split; [ reflexivity | exact Hu2 ] .. | ].
  cbn [tools] in H4. rewrite publish_to_test_pypi in H4 by exact Hc2.
  cbn [dist config uploads] in H4.
  destruct (true && credentials _ _); [ | discriminate H4 ].
  injection H4 as <-. right. cbn [exec_lines failed tools uploads]. rewrite Hu2.
  split; reflexivity.
Qed.

Ltac poetry_line_ok args pf Ho Hn p H :=
  rewrite exec_lines_cons;
  match goal with
  | |- context [exec_line ?i ?v ?l ?r] =>
      destruct (exec_line_cases i v l args r pf)
        as [[Ho ->]|[(Hn & H & ->)|(Hn & p & H & ->)]]
  end;
  cbn [failed fail tools uploads units] in *.

Ltac in_range :=
  repeat match goal with
         | |- context [(?a <=? ?b)%nat] => destruct (Nat.leb_spec a b)
         | |- context [(?a <? ?b)%nat] => destruct (Nat.ltb_spec a b)
         end;
  cbn [andb]; try lia; repeat split; try reflexivity; try lia.

(** The same script when the token is a plain word: it stops at the unit
    the platform fails at, if that is one of its four, and succeeds
    otherwise. *)
Lemma publish_script_plain i r :
  failed r = false -> uploads (tools r) = [] ->
  plain_word (secrets i "TEST_PYPI_TOKEN") = true ->
  let r' := exec_lines i [("TEST_PYPI_TOKEN", secrets i "TEST_PYPI_TOKEN")]
              (run publish_package) r in
  match outage i with
  | Some k => if (units r <=? k)%nat && (k <? units r + 4)%nat
              then failed r' = true /\ units r' = k
              else failed r' = false /\ units r' = (units r + 4)%nat
  | None => failed r' = false /\ units r' = (units r + 4)%nat
  end.
Proof.
  intros Hf Hu Hplain. apply plain_word_words in Hplain as [Hw Hopt].
  destruct r as [p u f]. cbn [failed tools uploads units] in *. subst f.
  cbn zeta. cbn [run publish_package].
  poetry_line_ok ["config"; "repositories.test-pypi"; "https://test.pypi.org/legacy/"]
    (@eq_refl (list string)
       ["poetry"; "config"; "repositories.test-pypi"; "https://test.pypi.org/legacy/"])
    Ho Hn1 p1 H1;
    [ rewrite Ho; in_range | discriminate H1 | ].
  injection H1 as <-.
  poetry_line_ok ("config" :: "pypi-token.test-pypi" :: words (secrets i "TEST_PYPI_TOKEN"))
    (token_line_words (secrets i "TEST_PYPI_TOKEN")) Ho Hn2 p2 H2;
    [ rewrite Ho; in_range
    | rewrite Hw, (config_token_plain _ _ Hopt) in H2; discriminate H2 | ].
  rewrite Hw, (config_token_plain _ _ Hopt) in H2. injection H2 as <-.
  poetry_line_ok ["build"] (@eq_refl (list string) ["poetry"; "build"]) Ho Hn3 p3 H3;
    [ rewrite Ho; in_range | discriminate H3 | ].
  injection H3 as <-.
  poetry_line_ok ["publish"; "-r"; "test-pypi"]
    (@eq_refl (list string) ["poetry"; "publish"; "-r"; "test-pypi"]) Ho Hn4 p4 H4;
    [ rewrite Ho; in_range | exfalso | ].
  - cbn [tools] in H4. rewrite publish_to_test_pypi in H4.
    + unfold credentials in H4. cbn [dist config set_config] in H4.
      change ("pypi-token." ++ "test-pypi")%string with "pypi-token.test-pypi" in H4.
      rewrite lookup_insert_eq in H4. discriminate H4.
    + cbn [config set_config].
      change ("repositories." ++ "test-pypi")%string with "repositories.test-pypi".
      rewrite lookup_insert_ne by discriminate. apply lookup_insert_eq.
  - cbn [exec_lines failed units].
    destruct (outage i) as [k|]; [ | split; [ reflexivity | lia ] ].
    assert (k <> u) by congruence. assert (k <> S u) by congruence.
    assert (k <> S (S u)) by congruence. assert (k <> S (S (S u))) by congruence.
    in_range.
Qed.

(** The job: nothing is uploaded when it fails, and one upload goes to the
    test registry when it succeeds. *)
Lemma exec_job_uploads i :
  uploads (tools (exec_job i publish))
    = if failed (exec_job i publish) then [] else [test_pypi_legacy].
Proof.
  rewrite job_split, publish_step.
  destruct (before_publish_summary i) as (_ & _ & Hu & _).
  destruct (failed (before_publish i)) eqn:Hf.
  - rewrite Hf, Hu. reflexivity.
  - destruct (publish_script_safe i (before_publish i) Hf Hu) as [[F U]|[F U]];
      cbv zeta in F, U; rewrite F, U; reflexivity.
Qed.

(** With a plain word for a token the job fails exactly when the platform
    fails at one of its units: ten on a cache hit, eleven otherwise. *)
Lemma exec_job_plain_token i :
  plain_word (secrets i "TEST_PYPI_TOKEN") = true ->
  let n := if eqb_nocase (cache_hit i) "true" then 10%nat else 11%nat in
  failed (exec_job i publish)
    = match outage i with
      | Some k => (k <? n)%nat
      | None => false
      end
  /\ units (exec_job i publish)
     = match outage i with
       | Some k => Nat.min k n
       | None => n
       end.
Proof.
  intros Hplain. rewrite job_split, publish_step.
  destruct (before_publish_summary i) as (Hf & Hn & Hu & _). cbv zeta in *.
  destruct (failed (before_publish i)) eqn:Ef.
  - rewrite Ef. rewrite Hn. symmetry in Hf.
    destruct (outage i) as [k|]; [ | discriminate Hf ].
    destruct (eqb_nocase (cache_hit i) "true"); apply Nat.ltb_lt in Hf;
      (split; [ symmetry; apply Nat.ltb_lt; lia | lia ]).
  - pose proof (publish_script_plain i (before_publish i) Ef Hu Hplain) as H.
    cbv zeta in H. rewrite Hn in H. symmetry in Hf.
    destruct (outage i) as [k|].
    + apply Nat.ltb_ge in Hf.
      destruct (eqb_nocase (cache_hit i) "true");
        rewrite Nat.min_r in H by exact Hf;
        (destruct (Nat.leb_spec 6 k), (Nat.leb_spec 7 k); try lia);
        match type of H with
        | context [(?a <? ?b)%nat] => destruct (Nat.ltb_spec a b)
        end; cbn [andb] in H; destruct H as [-> ->];
        (split; [ symmetry; first [ apply Nat.ltb_lt | apply Nat.ltb_ge ]; lia | lia ]).
    + destruct H as [-> ->]. destruct (eqb_nocase (cache_hit i) "true"); split; reflexivity.
Qed.

(** C8: the workflow starts on [workflow_dispatch] and on no other event;
    whatever the event, the secrets, the cache output and the failures of
    the platform, a run uploads nothing or uploads once, to
    [https://test.pypi.org/legacy/]; a dispatched run that meets no failure
    of the platform and whose token is a plain word does upload there;
    that URL is on the test registry and the production upload URL is
    not. *)
Theorem publish_only_on_dispatch_to_test_registry :
  (forall ev, triggered_by publish_test ev = true <-> ev = workflow_dispatch)
  /\ (forall ev i, published_to publish_test ev i = []
                   \/ published_to publish_test ev i = [test_pypi_legacy])
  /\ (forall ev i, pypi_legacy ∉ published_to publish_test ev i)
  /\ (forall i, outage i = None ->
        plain_word (secrets i "TEST_PYPI_TOKEN") = true ->
        published_to publish_test workflow_dispatch i = [test_pypi_legacy])
  /\ is_test_registry test_pypi_legacy = true
  /\ is_test_registry pypi_legacy = false.
Proof.
  assert (Hpub : forall i, published_to publish_test workflow_dispatch i
                           = uploads (tools (exec_job i publish))).
  { intros i. unfold published_to. cbn. apply app_nil_r. }
  assert (Hjob : forall i, uploads (tools (exec_job i publish)) = []
                           \/ uploads (tools (exec_job i publish)) = [test_pypi_legacy]).
  { intros i. rewrite exec_job_uploads.
    destruct (failed (exec_job i publish)); [ left | right ]; reflexivity. }
  split; [ | split; [ | split; [ | split; [ | split ] ] ] ].
  - intros ev; split; [ destruct ev; cbn; congruence | intros ->; reflexivity ].
  - intros ev i. destruct ev; try (left; reflexivity).
    rewrite Hpub. apply Hjob.
  - intros ev i Hin. destruct ev; try (apply elem_of_nil in Hin; exact Hin).
    rewrite Hpub in Hin. destruct (Hjob i) as [E|E]; rewrite E in Hin.
    + apply elem_of_nil in Hin; exact Hin.
    + apply list_elem_of_singleton in Hin. discriminate Hin.
  - intros i Hout Hplain. rewrite Hpub, exec_job_uploads.
    destruct (exec_job_plain_token i Hplain) as [-> _]. rewrite Hout. reflexivity.
  - reflexivity.
  - reflexivity.
Qed.
End PublishFacts.

(** ** More on the publish job: failures and the cache *)

Module PublishExtras.
Import PublishTest PublishSettings.


(** X8: [poetry install -E timm] runs unless the cache step reported
    ['true'], in whatever case it is written: with a plain word for a
    token, a job without failure runs 10 units on a cache hit and 11
    otherwise (the empty string included), and a job that fails at unit [k]
    has run the [k] units before it. *)
Theorem dependencies_installed_unless_cache_hit i :
  plain_word (secrets i "TEST_PYPI_TOKEN") = true ->
  units (exec_job i publish)
    = match outage i with
      | Some k => Nat.min k (if eqb_nocase (cache_hit i) "true" then 10 else 11)%nat
      | None => (if eqb_nocase (cache_hit i) "true" then 10 else 11)%nat
      end.
Proof.
  intros Hplain. apply (PublishFacts.exec_job_plain_token i Hplain).
Qed.

Lemma dependencies_installed_unless_cache_hit_witness :
  units (exec_job {| secrets := fun _ => "pypi-AgEIcHlwaS5vcmc"; cache_hit := "True";
                     outage := None |} publish) = 10%nat
  /\ units (exec_job {| secrets := fun _ => "pypi-AgEIcHlwaS5vcmc"; cache_hit := "";
                        outage := Some 20%nat |} publish) = 11%nat.
Proof.
  split.
  - apply (dependencies_installed_unless_cache_hit
             {| secrets := fun _ => "pypi-AgEIcHlwaS5vcmc"; cache_hit := "True";
                outage := None |}).
    reflexivity.
  - apply (dependencies_installed_unless_cache_hit
             {| secrets := fun _ => "pypi-AgEIcHlwaS5vcmc"; cache_hit := "";
                outage := Some 20%nat |}).
    reflexivity.
Defined.

(** The cache output is compared as a string, without regard to case; a
    failure at the upload leaves nothing uploaded. *)
Example cache_hit_ignores_case :
  units (exec_job {| secrets := fun _ => "t"; cache_hit := "TRUE"; outage := None |}
           publish) = 10%nat
  /\ units (exec_job {| secrets := fun _ => "t"; cache_hit := ""; outage := None |}
              publish) = 11%nat
  /\ uploads (tools (exec_job {| secrets := fun _ => "t"; cache_hit := "false";
                                 outage := Some 10%nat |} publish)) = [].
Proof. vm_compute. repeat split; reflexivity. Qed.
End PublishExtras.
